(** * RevenueCat webhook types: the declarations of [index.d.ts] and their
      conformance relation

    The repository is a TypeScript declaration file.  Its content is a set of
    named types; what a declaration means is the set of JSON payloads that are
    assignable to it.  The development therefore has three layers:

    - [ty], the fragment of TypeScript's type language that the file uses,
      and [json], the payloads;
    - [has_type], structural assignability of a payload to a type (with
      [strictNullChecks], which the explicit [| null] of the file presumes);
    - the declarations themselves, one Rocq definition per TypeScript
      declaration and under the same name, once for each of the two versions
      of the file that the repository holds. *)

From Stdlib Require Import String List Bool QArith Lia.
Import ListNotations.
Open Scope string_scope.
Open Scope list_scope.
Set Warnings "-register-all".

(** ** Payloads *)

(** A JSON number is a decimal literal; a rational represents it exactly. *)
Inductive json : Type :=
| JNull
| JBool (b : bool)
| JNumber (q : Q)
| JString (s : string)
| JArray (items : list json)
| JObject (members : list (string * json)).

(** Property access [o.k]: the first binding of the key. *)
Fixpoint lookup {A : Type} (k : string) (kvs : list (string * A)) : option A :=
  match kvs with
  | [] => None
  | (k', x) :: rest => if String.eqb k k' then Some x else lookup k rest
  end.

(** Assignment [o.k = x]: replaces the binding of the key, or adds one. *)
Fixpoint update {A : Type} (k : string) (x : A) (kvs : list (string * A))
  : list (string * A) :=
  match kvs with
  | [] => [(k, x)]
  | (k', y) :: rest =>
      if String.eqb k k' then (k, x) :: rest else (k', y) :: update k x rest
  end.

(** [delete o.k]: drops every binding of the key. *)
Fixpoint remove {A : Type} (k : string) (kvs : list (string * A))
  : list (string * A) :=
  match kvs with
  | [] => []
  | (k', y) :: rest =>
      if String.eqb k k' then remove k rest else (k', y) :: remove k rest
  end.

(** ** Types *)

(** A property signature: [name: T] or [name?: T]. *)
Record field (T : Type) : Type := Field {
  fname : string;
  foptional : bool;
  ftype : T
}.
Arguments Field {T} fname foptional ftype.
Arguments fname {T} f.
Arguments foptional {T} f.
Arguments ftype {T} f.

Inductive ty : Type :=
| TString                         (* string *)
| TNumber                         (* number *)
| TBoolean                        (* boolean *)
| TNull                           (* null *)
| TAny                            (* any *)
| TLit (s : string)               (* a string literal type *)
| TArray (t : ty)                 (* T[] *)
| TRecord (t : ty)                (* Record<string, T> *)
| TUnion (ts : list ty)           (* T1 | ... | Tn *)
| TObject (fs : list (field ty)). (* { ... } and interfaces *)

(** An interface is the list of its property signatures. *)
Definition interface : Type := list (field ty).

Definition req (name : string) (t : ty) : field ty := Field name false t.
Definition opt (name : string) (t : ty) : field ty := Field name true t.

(** [interface X extends B { own }]: the members of [B] and the own ones. *)
Definition extends (base own : interface) : interface := base ++ own.

(** The literal union ["A" | "B" | ...]. *)
Definition literals (ls : list string) : ty := TUnion (map TLit ls).

(** [T | null] *)
Definition nullable (t : ty) : ty := TUnion [t; TNull].

(** ** Assignability *)

Fixpoint has_type (t : ty) (v : json) {struct t} : bool :=
  match t with
  | TString => match v with JString _ => true | _ => false end
  | TNumber => match v with JNumber _ => true | _ => false end
  | TBoolean => match v with JBool _ => true | _ => false end
  | TNull => match v with JNull => true | _ => false end
  | TAny => true
  | TLit s => match v with JString s' => String.eqb s s' | _ => false end
  | TArray a =>
      match v with
      | JArray items => forallb (has_type a) items
      | _ => false
      end
  | TRecord a =>
      match v with
      | JObject kvs => forallb (fun kv => has_type a (snd kv)) kvs
      | _ => false
      end
  | TUnion ts => existsb (fun a => has_type a v) ts
  | TObject fs =>
      match v with
      | JObject kvs =>
          forallb (fun f =>
                     match lookup (fname f) kvs with
                     | Some x => has_type (ftype f) x
                     | None => foptional f
                     end) fs
      | _ => false
      end
  end.

(** A payload conforms to an interface. *)
Definition conforms (i : interface) (v : json) : bool := has_type (TObject i) v.

(** The declared property of a given name, if the interface has one. *)
Definition field_of (i : interface) (name : string) : option (field ty) :=
  find (fun f => String.eqb name (fname f)) i.

Definition field_names (i : interface) : list string := map fname i.

Definition has_field (i : interface) (name : string) : bool :=
  existsb (String.eqb name) (field_names i).

(** What an object must hold for one property signature. *)
Definition field_ok (kvs : list (string * json)) (f : field ty) : bool :=
  match lookup (fname f) kvs with
  | Some x => has_type (ftype f) x
  | None => foptional f
  end.

(** The literal of the discriminant property [type]. *)
Definition tag_of (i : interface) : option string :=
  match field_of i "type" with
  | Some (Field _ false (TLit s)) => Some s
  | _ => None
  end.

(** ** The declarations

    [index.d.ts] is kept in two versions.  [Wrapped] is the documented one,
    whose [Webhook] nests the event union under [event] next to
    [api_version]; [Flat] is the one whose [Webhook] is the union itself. *)

Module Wrapped.

Definition Attributes : ty :=
  TRecord (TObject [req "updated_at_ms" TNumber; req "value" TString]).

Definition Store : ty :=
  literals ["AMAZON"; "APP_STORE"; "MAC_APP_STORE"; "PLAY_STORE";
            "PROMOTIONAL"; "STRIPE"].

Definition Environment : ty := literals ["SANDBOX"; "PRODUCTION"].

Definition CancelReason : ty :=
  literals ["UNSUBSCRIBE"; "BILLING_ERROR"; "DEVELOPER_INITIATED";
            "PRICE_INCREASE"; "CUSTOMER_SUPPORT"; "UNKNOWN"].

Definition ExpirationReason : ty :=
  literals ["UNSUBSCRIBE"; "BILLING_ERROR"; "DEVELOPER_INITIATED";
            "PRICE_INCREASE"; "CUSTOMER_SUPPORT"; "SUBSCRIPTION_PAUSED";
            "UNKNOWN"].

Definition WebhookBase : interface :=
  [ req "id" TString;
    req "app_id" TString;
    req "event_timestamp_ms" TNumber;
    req "product_id" TString;
    req "period_type" TString;
    req "purchased_at_ms" TNumber;
    req "expiration_at_ms" TNumber;
    req "environment" Environment;
    req "entitlement_id" (nullable TString);
    req "entitlement_ids" (nullable (TArray TString));
    req "presented_offering_id" (nullable TString);
    req "transaction_id" TString;
    req "original_transaction_id" TString;
    req "is_family_share" TBoolean;
    req "country_code" TString;
    req "app_user_id" TString;
    req "aliases" (TArray TString);
    req "original_app_user_id" TString;
    req "currency" TString;
    req "price" (nullable TNumber);
    req "price_in_purchased_currency" (nullable TNumber);
    req "renewal_number" (TUnion [TNull; TNumber]);
    req "subscriber_attributes" Attributes;
    req "store" Store;
    opt "takehome_percentage" TNumber;
    opt "offer_code" (TUnion [TNull; TString]);
    opt "tax_percentage" TNumber;
    opt "commission_percentage" TNumber;
    req "metadata" (TUnion [TNull; TAny]) ].

Definition WebhookInitialPurchase : interface :=
  extends WebhookBase [req "type" (TLit "INITIAL_PURCHASE")].

Definition WebhookRenewal : interface :=
  extends WebhookBase
    [req "type" (TLit "RENEWAL"); req "is_trial_conversion" TBoolean].

Definition WebhookCancellation : interface :=
  extends WebhookBase
    [req "type" (TLit "CANCELLATION"); req "cancel_reason" CancelReason].

Definition WebhookUnCancellation : interface :=
  extends WebhookBase [req "type" (TLit "UNCANCELLATION")].

Definition WebhookNonRenewingPurchase : interface :=
  extends WebhookBase [req "type" (TLit "NON_RENEWING_PURCHASE")].

Definition WebhookExpiration : interface :=
  extends WebhookBase
    [req "type" (TLit "EXPIRATION");
     req "expiration_reason" ExpirationReason].

Definition WebhookSubscriptionPaused : interface :=
  extends WebhookBase
    [req "type" (TLit "SUBSCRIPTION_PAUSED");
     req "expiration_reason" ExpirationReason;
     opt "auto_resume_at_ms" TNumber].

Definition WebhookBillingIssue : interface :=
  extends WebhookBase
    [req "type" (TLit "BILLING_ISSUE");
     req "grace_period_expiration_at_ms" (nullable TNumber)].

Definition WebhookProductChange : interface :=
  extends WebhookBase
    [req "type" (TLit "PRODUCT_CHANGE"); opt "new_product_id" TString].

Definition WebhookSubscriptionExtended : interface :=
  extends WebhookBase [req "type" (TLit "SUBSCRIPTION_EXTENDED")].

Definition WebhookTemporaryEntitlementGrant : interface :=
  [ req "type" (TLit "TEMPORARY_ENTITLEMENT_GRANT");
    req "id" TString;
    req "app_user_id" TString;
    req "purchased_at_ms" TNumber;
    req "expiration_at_ms" TNumber;
    req "event_timestamp_ms" TNumber;
    req "product_id" TString;
    req "entitlement_ids" (nullable (TArray TString));
    req "store" Store;
    req "transaction_id" TString ].

Definition WebhookTransfer : interface :=
  [ req "type" (TLit "TRANSFER");
    req "id" TString;
    req "app_id" TString;
    req "environment" Environment;
    req "store" Store;
    req "event_timestamp_ms" TNumber;
    req "transferred_from" (TArray TString);
    req "transferred_to" (TArray TString) ].

(** The members of the union under [event], in declaration order. *)
Definition event : list interface :=
  [ WebhookInitialPurchase;
    WebhookRenewal;
    WebhookCancellation;
    WebhookUnCancellation;
    WebhookNonRenewingPurchase;
    WebhookExpiration;
    WebhookSubscriptionPaused;
    WebhookBillingIssue;
    WebhookProductChange;
    WebhookSubscriptionExtended;
    WebhookTemporaryEntitlementGrant;
    WebhookTransfer ].

Definition Webhook : ty :=
  TObject [ req "api_version" TString;
            req "event" (TUnion (map TObject event)) ].

(** The members that are declared with [extends WebhookBase]. *)
Definition envelope_variants : list interface :=
  [ WebhookInitialPurchase;
    WebhookRenewal;
    WebhookCancellation;
    WebhookUnCancellation;
    WebhookNonRenewingPurchase;
    WebhookExpiration;
    WebhookSubscriptionPaused;
    WebhookBillingIssue;
    WebhookProductChange;
    WebhookSubscriptionExtended ].

End Wrapped.

Module Flat.

Definition Attributes : ty :=
  TRecord (TObject [req "updated_at_ms" TNumber; req "value" TString]).

Definition Store : ty :=
  literals ["AMAZON"; "APP_STORE"; "MAC_APP_STORE"; "PLAY_STORE";
            "PROMOTIONAL"; "STRIPE"].

Definition Environment : ty := literals ["SANDBOX"; "PRODUCTION"].

Definition CancelReason : ty :=
  literals ["UNSUBSCRIBE"; "BILLING_ERROR"; "DEVELOPER_INITIATED";
            "PRICE_INCREASE"; "CUSTOMER_SUPPORT"; "UNKNOWN"].

Definition ExpirationReason : ty :=
  literals ["UNSUBSCRIBE"; "BILLING_ERROR"; "DEVELOPER_INITIATED";
            "PRICE_INCREASE"; "CUSTOMER_SUPPORT"; "UNKNOWN"].

Definition WebhookBase : interface :=
  [ req "id" TString;
    req "app_id" TString;
    req "event_timestamp_ms" TNumber;
    req "product_id" TString;
    req "period_type" TString;
    req "purchased_at_ms" TNumber;
    req "expiration_at_ms" TNumber;
    req "environment" Environment;
    req "entitlement_id" (nullable TString);
    req "entitlement_ids" (TArray TString);
    req "presented_offering_id" (nullable TString);
    req "transaction_id" TString;
    req "original_transaction_id" TString;
    req "is_family_share" TBoolean;
    req "country_code" TString;
    req "app_user_id" TString;
    req "aliases" (TArray TString);
    req "original_app_user_id" TString;
    req "currency" TString;
    req "price" TNumber;
    req "price_in_purchased_currency" TNumber;
    req "subscriber_attributes" Attributes;
    req "store" Store;
    opt "takehome_percentage" TNumber;
    opt "offer_code" (TUnion [TNull; TString]);
    opt "tax_percentage" TNumber;
    opt "commission_percentage" TNumber ].

Definition WebhookInitialPurchase : interface :=
  extends WebhookBase [req "type" (TLit "INITIAL_PURCHASE")].

Definition WebhookRenewal : interface :=
  extends WebhookBase [req "type" (TLit "RENEWAL")].

Definition WebhookCancellation : interface :=
  extends WebhookBase
    [req "type" (TLit "CANCELLATION"); req "cancel_reason" CancelReason].

Definition WebhookUnCancellation : interface :=
  extends WebhookBase [req "type" (TLit "UNCANCELLATION")].

Definition WebhookNonRenewingPurchase : interface :=
  extends WebhookBase [req "type" (TLit "NON_RENEWING_PURCHASE")].

Definition WebhookExpiration : interface :=
  extends WebhookBase
    [req "type" (TLit "EXPIRATION");
     req "expiration_reason" ExpirationReason].

Definition WebhookSubscriptionPaused : interface :=
  extends WebhookBase
    [req "type" (TLit "SUBSCRIPTION_PAUSED");
     req "expiration_reason" ExpirationReason].

Definition WebhookBillingIssue : interface :=
  extends WebhookBase [req "type" (TLit "BILLING_ISSUE")].

Definition WebhookProductChange : interface :=
  extends WebhookBase
    [req "type" (TLit "PRODUCT_CHANGE"); req "new_product_id" TString].

Definition WebhookSubscriptionExtended : interface :=
  extends WebhookBase [req "type" (TLit "SUBSCRIPTION_EXTENDED")].

Definition WebhookTemporaryEntitlementGrant : interface :=
  [ req "type" (TLit "TEMPORARY_ENTITLEMENT_GRANT");
    req "app_user_id" TString;
    req "purchased_at_ms" TNumber;
    req "expiration_at_ms" TNumber;
    req "event_timestamp_ms" TNumber;
    req "product_id" TString;
    req "entitlement_ids" (TArray TString);
    req "store" Store;
    req "transaction_id" TString ].

(** The members of the union [Webhook], in declaration order. *)
Definition event : list interface :=
  [ WebhookInitialPurchase;
    WebhookRenewal;
    WebhookCancellation;
    WebhookUnCancellation;
    WebhookNonRenewingPurchase;
    WebhookExpiration;
    WebhookSubscriptionPaused;
    WebhookBillingIssue;
    WebhookProductChange;
    WebhookSubscriptionExtended;
    WebhookTemporaryEntitlementGrant ].

Definition Webhook : ty := TUnion (map TObject event).

Definition envelope_variants : list interface :=
  [ WebhookInitialPurchase;
    WebhookRenewal;
    WebhookCancellation;
    WebhookUnCancellation;
    WebhookNonRenewingPurchase;
    WebhookExpiration;
    WebhookSubscriptionPaused;
    WebhookBillingIssue;
    WebhookProductChange;
    WebhookSubscriptionExtended ].

End Flat.

(** The two versions of the file. *)
Inductive snapshot : Type := wrapped | flat.

Definition event_union (s : snapshot) : list interface :=
  match s with wrapped => Wrapped.event | flat => Flat.event end.

Definition envelope_variants (s : snapshot) : list interface :=
  match s with
  | wrapped => Wrapped.envelope_variants
  | flat => Flat.envelope_variants
  end.

Definition union_tags (s : snapshot) : list (option string) :=
  map tag_of (event_union s).

(** The tags of the flat union: the documented ones except TRANSFER. *)
Definition flat_tags : list string :=
  [ "INITIAL_PURCHASE"; "RENEWAL"; "CANCELLATION"; "UNCANCELLATION";
    "NON_RENEWING_PURCHASE"; "EXPIRATION"; "SUBSCRIPTION_PAUSED";
    "BILLING_ISSUE"; "PRODUCT_CHANGE"; "SUBSCRIPTION_EXTENDED";
    "TEMPORARY_ENTITLEMENT_GRANT" ].

(** ** Narrowing and validation *)

(** Modelled from the spec: the twelve documented tag literals of its
    section 3.3, which [Narrow] dispatches on; the file itself holds no such
    table, only the literal [type] of each interface. *)
Definition known_tags : list string :=
  [ "INITIAL_PURCHASE"; "RENEWAL"; "CANCELLATION"; "UNCANCELLATION";
    "NON_RENEWING_PURCHASE"; "EXPIRATION"; "SUBSCRIPTION_PAUSED";
    "BILLING_ISSUE"; "PRODUCT_CHANGE"; "SUBSCRIPTION_EXTENDED";
    "TEMPORARY_ENTITLEMENT_GRANT"; "TRANSFER" ].

Definition is_known_tag (t : string) : bool := existsb (String.eqb t) known_tags.

(** A field error: where, what the shape expects, what was observed
    ([None] for an absent key). *)
Record violation : Type := Violation {
  path : string;
  expected : ty;
  observed : option json
}.

Inductive narrow_error : Type :=
| UnknownEventType
| MalformedShape (violations : list violation).

(** Modelled from the spec: the operation [Define] of its section 4.1, the
    field contract of a tag; the file has no such function.  The contract is
    the interface of the documented union whose [type] literal is the tag. *)
Definition Define (tag : string) : option interface :=
  find (fun i => match tag_of i with
                 | Some t => String.eqb tag t
                 | None => false
                 end) Wrapped.event.

(** Modelled from the spec: the operation [Validate] of its section 4.1,
    which the file does not have.  Every field of the shape is checked and
    every mismatch reported; a nullable field needs its key, an optional
    one does not. *)
Definition Validate (shape : interface) (ev : list (string * json))
  : list violation :=
  flat_map (fun f =>
              match lookup (fname f) ev with
              | Some x =>
                  if has_type (ftype f) x then []
                  else [Violation (fname f) (ftype f) (Some x)]
              | None =>
                  if foptional f then []
                  else [Violation (fname f) (ftype f) None]
              end) shape.

(** Modelled from the spec: the operation [Narrow] of its section 4.1 and its
    two error kinds of section 7, which the file does not have.  The tag is
    read from [type]; a tag outside the twelve is [UnknownEventType], a known
    tag whose shape is violated is [MalformedShape]; otherwise the event comes
    back under its tag. *)
Definition Narrow (ev : list (string * json))
  : narrow_error + (string * list (string * json)) :=
  match lookup "type" ev with
  | Some (JString t) =>
      if is_known_tag t then
        match Define t with
        | Some shape =>
            match Validate shape ev with
            | [] => inr (t, ev)
            | vs => inl (MalformedShape vs)
            end
        | None => inl UnknownEventType
        end
      else inl UnknownEventType
  | _ => inl UnknownEventType
  end.

(** ** Sample payloads *)

(** The end-to-end example of the spec's section 8, key by key. *)
Definition spec_example : list (string * json) :=
  [ ("type", JString "RENEWAL");
    ("id", JString "evt_1");
    ("app_id", JString "app_1");
    ("event_timestamp_ms", JNumber 1000);
    ("product_id", JString "p1");
    ("period_type", JString "NORMAL");
    ("purchased_at_ms", JNumber 900);
    ("expiration_at_ms", JNumber 2000);
    ("environment", JString "PRODUCTION");
    ("entitlement_ids", JArray [JString "pro"]);
    ("transaction_id", JString "t1");
    ("original_transaction_id", JString "t1");
    ("is_family_share", JBool false);
    ("country_code", JString "US");
    ("app_user_id", JString "u1");
    ("aliases", JArray [JString "u1"]);
    ("original_app_user_id", JString "u1");
    ("currency", JString "USD");
    ("price", JNumber (999 # 100));
    ("price_in_purchased_currency", JNumber (999 # 100));
    ("subscriber_attributes", JObject []);
    ("store", JString "APP_STORE");
    ("is_trial_conversion", JBool true) ].

(** The same event with the four nullable keys it leaves out. *)
Definition full_example : list (string * json) :=
  spec_example ++
  [ ("entitlement_id", JNull);
    ("presented_offering_id", JNull);
    ("renewal_number", JNull);
    ("metadata", JNull) ].

(** [full_example] under another tag. *)
Definition retag (t : string) (ev : list (string * json))
  : list (string * json) := update "type" (JString t) ev.

Definition transfer_sample : list (string * json) :=
  [ ("type", JString "TRANSFER");
    ("id", JString "evt_2");
    ("app_id", JString "app_1");
    ("environment", JString "SANDBOX");
    ("store", JString "PLAY_STORE");
    ("event_timestamp_ms", JNumber 1000);
    ("transferred_from", JArray [JString "u1"]);
    ("transferred_to", JArray [JString "u2"; JString "u3"]) ].

Definition grant_sample (entitlements : json) : list (string * json) :=
  [ ("type", JString "TEMPORARY_ENTITLEMENT_GRANT");
    ("id", JString "evt_3");
    ("app_user_id", JString "u1");
    ("purchased_at_ms", JNumber 900);
    ("expiration_at_ms", JNumber 2000);
    ("event_timestamp_ms", JNumber 1000);
    ("product_id", JString "p1");
    ("entitlement_ids", entitlements);
    ("store", JString "STRIPE");
    ("transaction_id", JString "t1") ].

(** Every declaration of the key [k] in [i] accepts the value [x]. *)
Definition accepts (i : interface) (k : string) (x : json) : bool :=
  forallb (fun f => if String.eqb (fname f) k then has_type (ftype f) x
                    else true) i.

(** Some declaration of the key [k] in [i] rejects the value [x]. *)
Definition rejects (i : interface) (k : string) (x : json) : bool :=
  existsb (fun f => String.eqb (fname f) k && negb (has_type (ftype f) x)) i.

(** The key [k] is declared in [i], and only with [?]. *)
Definition declared_optional (i : interface) (k : string) : bool :=
  has_field i k &&
  forallb (fun f => if String.eqb (fname f) k then foptional f else true) i.

(** The key [k] is declared in [i] without [?]. *)
Definition declared_required (i : interface) (k : string) : bool :=
  existsb (fun f => String.eqb (fname f) k && negb (foptional f)) i.

(** The properties of the envelope [base] that [i] declares too. *)
Definition shared_with (base i : interface) : list string :=
  filter (has_field i) (field_names base).

Definition WebhookBase_of (s : snapshot) : interface :=
  match s with wrapped => Wrapped.WebhookBase | flat => Flat.WebhookBase end.

Definition WebhookProductChange_of (s : snapshot) : interface :=
  match s with
  | wrapped => Wrapped.WebhookProductChange
  | flat => Flat.WebhookProductChange
  end.

Definition WebhookNonRenewingPurchase_of (s : snapshot) : interface :=
  match s with
  | wrapped => Wrapped.WebhookNonRenewingPurchase
  | flat => Flat.WebhookNonRenewingPurchase
  end.

Definition WebhookTemporaryEntitlementGrant_of (s : snapshot) : interface :=
  match s with
  | wrapped => Wrapped.WebhookTemporaryEntitlementGrant
  | flat => Flat.WebhookTemporaryEntitlementGrant
  end.

(** An EXPIRATION event whose reason is SUBSCRIPTION_PAUSED. *)
Definition paused_expiration : list (string * json) :=
  update "expiration_reason" (JString "SUBSCRIPTION_PAUSED")
    (retag "EXPIRATION" full_example).

(** A non-subscription purchase, with the expiration given. *)
Definition non_renewing_purchase (expiration : json) : list (string * json) :=
  update "expiration_at_ms" expiration
    (retag "NON_RENEWING_PURCHASE" full_example).

(** [full_example] with the keys that single variants add, to be retagged. *)
Definition envelope_sample (t : string) : list (string * json) :=
  retag t
    (full_example ++
     [ ("cancel_reason", JString "UNSUBSCRIBE");
       ("expiration_reason", JString "UNKNOWN");
       ("grace_period_expiration_at_ms", JNull);
       ("new_product_id", JString "p2") ]).

(** ** Observations on the declarations *)

(** Pairwise distinct names. *)
Fixpoint distinct (l : list string) : bool :=
  match l with
  | [] => true
  | x :: rest => negb (existsb (String.eqb x) rest) && distinct rest
  end.

(** The union type itself: [event] of the wrapped [Webhook], the flat
    [Webhook]. *)
Definition event_type (s : snapshot) : ty := TUnion (map TObject (event_union s)).

(** The properties that every member of a union declares: what can be read
    from a value of the union before it is narrowed. *)
Definition common_fields (members : list interface) : list string :=
  match members with
  | [] => []
  | i :: rest =>
      filter (fun n => forallb (fun j => has_field j n) rest) (field_names i)
  end.

(** The members whose body is the literal [type] alone. *)
Definition plain_variants (s : snapshot) : list interface :=
  match s with
  | wrapped =>
      [ Wrapped.WebhookInitialPurchase;
        Wrapped.WebhookUnCancellation;
        Wrapped.WebhookNonRenewingPurchase;
        Wrapped.WebhookSubscriptionExtended ]
  | flat =>
      [ Flat.WebhookInitialPurchase;
        Flat.WebhookRenewal;
        Flat.WebhookUnCancellation;
        Flat.WebhookNonRenewingPurchase;
        Flat.WebhookBillingIssue;
        Flat.WebhookSubscriptionExtended ]
  end.

Definition WebhookCancellation_of (s : snapshot) : interface :=
  match s with
  | wrapped => Wrapped.WebhookCancellation
  | flat => Flat.WebhookCancellation
  end.

(** The members that declare [expiration_reason]. *)
Definition expiring_variants (s : snapshot) : list interface :=
  match s with
  | wrapped => [Wrapped.WebhookExpiration; Wrapped.WebhookSubscriptionPaused]
  | flat => [Flat.WebhookExpiration; Flat.WebhookSubscriptionPaused]
  end.

(** The literals of [Store], [Environment], [CancelReason] and
    [ExpirationReason] as the file lists them. *)
Definition store_values : list string :=
  ["AMAZON"; "APP_STORE"; "MAC_APP_STORE"; "PLAY_STORE"; "PROMOTIONAL";
   "STRIPE"].

Definition environment_values : list string := ["SANDBOX"; "PRODUCTION"].

Definition cancel_reasons : list string :=
  ["UNSUBSCRIBE"; "BILLING_ERROR"; "DEVELOPER_INITIATED"; "PRICE_INCREASE";
   "CUSTOMER_SUPPORT"; "UNKNOWN"].

Definition expiration_reasons (s : snapshot) : list string :=
  match s with
  | wrapped =>
      ["UNSUBSCRIBE"; "BILLING_ERROR"; "DEVELOPER_INITIATED"; "PRICE_INCREASE";
       "CUSTOMER_SUPPORT"; "SUBSCRIPTION_PAUSED"; "UNKNOWN"]
  | flat => cancel_reasons
  end.

(** The optional percentages of the envelope. *)
Definition percentage_fields : list string :=
  ["takehome_percentage"; "tax_percentage"; "commission_percentage"].

(** The properties of the envelope declared [T | null] without [?]. *)
Definition nullable_fields (s : snapshot) : list string :=
  match s with
  | wrapped =>
      ["entitlement_id"; "entitlement_ids"; "presented_offering_id"; "price";
       "price_in_purchased_currency"; "renewal_number"; "metadata"]
  | flat => ["entitlement_id"; "presented_offering_id"]
  end.

(** A payload written against the flat envelope, completed for the wrapped
    one: the two keys that only the latter declares, as null. *)
Definition upgrade (kvs : list (string * json)) : list (string * json) :=
  update "metadata" JNull (update "renewal_number" JNull kvs).

(** One entry of [Attributes]. *)
Definition attribute (updated_at_ms : Q) (value : string) : json :=
  JObject [("updated_at_ms", JNumber updated_at_ms); ("value", JString value)].

(** The properties typed by a reason enumeration: the interface, the key
    and the literals of the enumeration. *)
Definition reason_fields (s : snapshot)
  : list (interface * (string * list string)) :=
  (WebhookCancellation_of s, ("cancel_reason", cancel_reasons)) ::
  map (fun i => (i, ("expiration_reason", expiration_reasons s)))
    (expiring_variants s).


(** The keys of the envelope that may hold null, and those that may be
    absent. *)
Definition null_permitted (s : snapshot) : list string :=
  nullable_fields s ++ ["offer_code"].

Definition absence_permitted : list string :=
  percentage_fields ++ ["offer_code"].

(** Interfaces of the two versions under one tag, the flat one first:
    those to which the wrapped version added no property of their own
    (an added optional one, as [auto_resume_at_ms], would still have to be
    well typed when the payload holds the key) ... *)
Definition upgradable : list (interface * interface) :=
  [ (Flat.WebhookInitialPurchase, Wrapped.WebhookInitialPurchase);
    (Flat.WebhookCancellation, Wrapped.WebhookCancellation);
    (Flat.WebhookUnCancellation, Wrapped.WebhookUnCancellation);
    (Flat.WebhookNonRenewingPurchase, Wrapped.WebhookNonRenewingPurchase);
    (Flat.WebhookExpiration, Wrapped.WebhookExpiration);
    (Flat.WebhookProductChange, Wrapped.WebhookProductChange);
    (Flat.WebhookSubscriptionExtended, Wrapped.WebhookSubscriptionExtended) ].

(** ... and those whose own properties the flat version declares no more
    strictly than the wrapped one. *)
Definition downgradable : list (interface * interface) :=
  [ (Flat.WebhookInitialPurchase, Wrapped.WebhookInitialPurchase);
    (Flat.WebhookRenewal, Wrapped.WebhookRenewal);
    (Flat.WebhookCancellation, Wrapped.WebhookCancellation);
    (Flat.WebhookUnCancellation, Wrapped.WebhookUnCancellation);
    (Flat.WebhookNonRenewingPurchase, Wrapped.WebhookNonRenewingPurchase);
    (Flat.WebhookBillingIssue, Wrapped.WebhookBillingIssue);
    (Flat.WebhookSubscriptionExtended, Wrapped.WebhookSubscriptionExtended) ].

(** The keys of the envelope that only the wrapped version lets be null. *)
Definition null_only_in_wrapped : list string :=
  ["entitlement_ids"; "price"; "price_in_purchased_currency"].

(** * Properties *)

(** ** Objects as key-value lists *)

Section Members.
Context {A : Type}.
Implicit Types (k : string) (x : A) (kvs : list (string * A)).

Lemma lookup_update_eq k x kvs : lookup k (update k x kvs) = Some x.
Proof.
  induction kvs as [|[k' y] rest IH]; simpl.
  - now rewrite String.eqb_refl.
  - destruct (String.eqb k k') eqn:E; simpl.
    + now rewrite String.eqb_refl.
    + now rewrite E.
Qed.

Lemma lookup_update_neq k k0 x kvs :
  k0 <> k -> lookup k0 (update k x kvs) = lookup k0 kvs.
Proof.
  intros Hne. apply String.eqb_neq in Hne.
  induction kvs as [|[k' y] rest IH]; simpl.
  - now rewrite Hne.
  - destruct (String.eqb k k') eqn:E; simpl.
    + apply String.eqb_eq in E. subst k'. now rewrite Hne.
    + now rewrite IH.
Qed.

Lemma lookup_remove_eq k kvs : lookup k (remove k kvs) = None.
Proof.
  induction kvs as [|[k' y] rest IH]; simpl; [reflexivity|].
  destruct (String.eqb k k') eqn:E; simpl; [assumption|].
  now rewrite E.
Qed.

Lemma lookup_remove_neq k k0 kvs :
  k0 <> k -> lookup k0 (remove k kvs) = lookup k0 kvs.
Proof.
  intros Hne. apply String.eqb_neq in Hne.
  induction kvs as [|[k' y] rest IH]; simpl; [reflexivity|].
  destruct (String.eqb k k') eqn:E; simpl.
  - apply String.eqb_eq in E. subst k'. now rewrite Hne.
  - now rewrite IH.
Qed.

End Members.

(** Case analysis on membership in a list that is written out: one goal per
    element, the element substituted. *)
Ltac each_member H :=
  simpl in H; repeat (destruct H as [<-|H]; [|]); try contradiction.

(** The same for a list of tuples: the components substituted. *)
Ltac each_entry H :=
  simpl in H;
  repeat (let E := fresh "E" in
          destruct H as [E|H]; [injection E; clear E; intros; subst|]);
  try contradiction.

(** ** Conformance, field by field *)

Lemma conforms_unfold i kvs :
  conforms i (JObject kvs) = forallb (field_ok kvs) i.
Proof. reflexivity. Qed.

Lemma conforms_object i v :
  conforms i v = true -> exists kvs, v = JObject kvs.
Proof.
  destruct v; simpl; try discriminate. intros _. now eexists.
Qed.

Lemma conforms_field i kvs f :
  conforms i (JObject kvs) = true -> In f i -> field_ok kvs f = true.
Proof.
  rewrite conforms_unfold, forallb_forall. auto.
Qed.

Lemma conforms_required i kvs name t :
  conforms i (JObject kvs) = true -> In (req name t) i ->
  exists x, lookup name kvs = Some x /\ has_type t x = true.
Proof.
  intros Hc Hin. pose proof (conforms_field _ _ _ Hc Hin) as Hf.
  unfold field_ok in Hf. simpl in Hf.
  destruct (lookup name kvs) as [x|]; [eauto | discriminate].
Qed.

(** Writing a key keeps conformance when every declaration of that key
    accepts the new value. *)
Lemma conforms_update i kvs k x :
  conforms i (JObject kvs) = true ->
  (forall f, In f i -> fname f = k -> has_type (ftype f) x = true) ->
  conforms i (JObject (update k x kvs)) = true.
Proof.
  rewrite !conforms_unfold, !forallb_forall. intros Hc Hk f Hin.
  unfold field_ok. destruct (string_dec (fname f) k) as [E|E].
  - rewrite E, lookup_update_eq. now apply Hk.
  - rewrite lookup_update_neq by assumption. now apply Hc.
Qed.

(** Writing a value that some declaration of the key rejects breaks it. *)
Lemma conforms_update_rejected i kvs k x f :
  In f i -> fname f = k -> has_type (ftype f) x = false ->
  conforms i (JObject (update k x kvs)) = false.
Proof.
  intros Hin Hk Hx. apply not_true_is_false. intros Hc.
  pose proof (conforms_field _ _ _ Hc Hin) as Hf.
  unfold field_ok in Hf. rewrite Hk, lookup_update_eq in Hf. congruence.
Qed.

(** Deleting a key keeps conformance when every declaration of it is
    optional, and breaks it when one is required. *)
Lemma conforms_remove i kvs k :
  conforms i (JObject kvs) = true ->
  (forall f, In f i -> fname f = k -> foptional f = true) ->
  conforms i (JObject (remove k kvs)) = true.
Proof.
  rewrite !conforms_unfold, !forallb_forall. intros Hc Hk f Hin.
  unfold field_ok. destruct (string_dec (fname f) k) as [E|E].
  - rewrite E, lookup_remove_eq. now apply Hk.
  - rewrite lookup_remove_neq by assumption. now apply Hc.
Qed.

Lemma conforms_remove_required i kvs k f :
  In f i -> fname f = k -> foptional f = false ->
  conforms i (JObject (remove k kvs)) = false.
Proof.
  intros Hin Hk Ho. apply not_true_is_false. intros Hc.
  pose proof (conforms_field _ _ _ Hc Hin) as Hf.
  unfold field_ok in Hf. rewrite Hk, lookup_remove_eq in Hf. congruence.
Qed.

(** The discriminant of an interface is one of its required properties. *)
Lemma tag_of_field i t : tag_of i = Some t -> In (req "type" (TLit t)) i.
Proof.
  unfold tag_of, field_of. intros H.
  destruct (find _ i) as [[n o a]|] eqn:F; [|discriminate].
  apply find_some in F. destruct F as [Hin Hn]. cbv beta in Hn.
  change (fname (Field n o a)) with n in Hn.
  apply String.eqb_eq in Hn. subst n.
  destruct o; [discriminate|]. destruct a; try discriminate.
  now inversion H; subst.
Qed.

(** A conforming payload carries the tag of its interface under [type]. *)
Lemma conforms_tag i v t :
  conforms i v = true -> tag_of i = Some t ->
  exists kvs, v = JObject kvs /\ lookup "type" kvs = Some (JString t).
Proof.
  intros Hc Ht. destruct (conforms_object _ _ Hc) as [kvs ->].
  exists kvs. split; [reflexivity|].
  apply tag_of_field in Ht.
  destruct (conforms_required _ _ _ _ Hc Ht) as [x [Hl Hx]].
  destruct x; simpl in Hx; try discriminate.
  apply String.eqb_eq in Hx. now subst.
Qed.

(** [Validate] reports nothing exactly on the conforming payloads. *)
Lemma Validate_nil shape ev :
  Validate shape ev = [] <-> conforms shape (JObject ev) = true.
Proof.
  rewrite conforms_unfold. unfold Validate, field_ok.
  induction shape as [|f fs IH]; simpl; [tauto|].
  rewrite andb_true_iff, <- IH. split.
  - intros H. apply app_eq_nil in H. destruct H as [H1 H2]. split; [|assumption].
    destruct (lookup (fname f) ev) as [x|].
    + destruct (has_type (ftype f) x); [reflexivity | discriminate].
    + destruct (foptional f); [reflexivity | discriminate].
  - intros [H1 H2]. rewrite H2, app_nil_r.
    destruct (lookup (fname f) ev) as [x|]; now rewrite H1.
Qed.

(** A value of a literal union is one of its literals. *)
Lemma has_type_literals ls v :
  has_type (literals ls) v = true <-> exists s, v = JString s /\ In s ls.
Proof.
  unfold literals. simpl. rewrite existsb_exists. split.
  - intros [a [Hin Ha]]. apply in_map_iff in Hin. destruct Hin as [s [<- Hs]].
    destruct v; simpl in Ha; try discriminate.
    apply String.eqb_eq in Ha. subst. eauto.
  - intros [s [-> Hs]]. exists (TLit s). split.
    + now apply in_map.
    + simpl. apply String.eqb_refl.
Qed.

(** A payload of a union of interfaces conforms to one of them. *)
Lemma has_type_union_of_interfaces (members : list interface) v :
  has_type (TUnion (map TObject members)) v = true <->
  exists i, In i members /\ conforms i v = true.
Proof.
  simpl. rewrite existsb_exists. split.
  - intros [a [Hin Ha]]. apply in_map_iff in Hin.
    destruct Hin as [i [<- Hi]]. now exists i.
  - intros [i [Hi Hc]]. exists (TObject i). split; [now apply in_map | exact Hc].
Qed.

(** ** The union and its discriminant *)

(** C1 as stated fails: the claim says that in every version of the file the
    union has one variant per documented tag, twelve in all.  The flat
    version has eleven members and none of them is tagged TRANSFER. *)
Lemma flat_union_is_not_the_twelve :
  ~ (forall s, union_tags s = map Some known_tags) /\
  length (event_union flat) = 11%nat /\
  existsb (fun t => match t with
                    | Some t => String.eqb t "TRANSFER"
                    | None => false
                    end) (union_tags flat) = false.
Proof.
  split; [|split; reflexivity].
  intros H. specialize (H flat). apply (f_equal (@length _)) in H.
  vm_compute in H. discriminate H.
Qed.

(** C1, amended: in the wrapped version the union under [event] has exactly
    twelve members, whose [type] literals are the twelve documented tags in
    order; in the flat version the union has exactly eleven members, whose
    literals are the documented tags except TRANSFER.  In both, every member
    declares [type] as a required string literal, and [Webhook] is built from
    these members and nothing else. *)
Theorem event_union_variants :
  union_tags wrapped = map Some known_tags /\
  length (event_union wrapped) = 12%nat /\
  union_tags flat = map Some flat_tags /\
  length (event_union flat) = 11%nat /\
  flat_tags = filter (fun t => negb (String.eqb t "TRANSFER")) known_tags /\
  Wrapped.Webhook =
    TObject [ req "api_version" TString;
              req "event" (TUnion (map TObject (event_union wrapped))) ] /\
  Flat.Webhook = TUnion (map TObject (event_union flat)).
Proof.
  repeat split; vm_compute; reflexivity.
Qed.

Lemma union_tags_NoDup s : NoDup (union_tags s).
Proof.
  destruct s; vm_compute;
    repeat (constructor;
            [ simpl; intros H;
              repeat (destruct H as [H|H]; [discriminate H|]); exact H | ]);
    constructor.
Qed.

Lemma union_tags_Some s i :
  In i (event_union s) -> exists t, tag_of i = Some t.
Proof.
  destruct s; intros H; each_member H; vm_compute; eauto.
Qed.

(** C10: in each version of the file the [type] literals of the members of
    the union are pairwise distinct (two positions of the union with the same
    literal are the same position, and every member has a literal), so a
    payload conforms to at most one member: its [type] selects the variant. *)
Theorem discriminant_selects_one_variant
  (s : snapshot) (m n : nat) (i j : interface) :
  nth_error (event_union s) m = Some i ->
  nth_error (event_union s) n = Some j ->
  (exists t, tag_of i = Some t) /\
  (tag_of i = tag_of j -> m = n) /\
  (forall v, conforms i v = true -> conforms j v = true -> m = n).
Proof.
  intros Hm Hn.
  assert (Hi : exists t, tag_of i = Some t)
    by (eapply union_tags_Some, nth_error_In; eassumption).
  assert (Hj : exists t, tag_of j = Some t)
    by (eapply union_tags_Some, nth_error_In; eassumption).
  assert (Hdistinct : tag_of i = tag_of j -> m = n).
  { intros E.
    pose proof (union_tags_NoDup s) as ND.
    rewrite NoDup_nth_error in ND. apply ND.
    - unfold union_tags. rewrite length_map.
      apply nth_error_Some. congruence.
    - unfold union_tags.
      rewrite (map_nth_error tag_of _ _ Hm), (map_nth_error tag_of _ _ Hn).
      now f_equal. }
  split; [exact Hi|]. split; [exact Hdistinct|].
  intros v Hci Hcj. apply Hdistinct.
  destruct Hi as [ti Hti], Hj as [tj Htj].
  destruct (conforms_tag _ _ _ Hci Hti) as [kvs [-> Hl]].
  destruct (conforms_tag _ _ _ Hcj Htj) as [kvs' [E Hl']].
  inversion E; subst kvs'. congruence.
Qed.

(** No payload is both a RENEWAL and an EXPIRATION of the wrapped union. *)
Lemma discriminant_selects_one_variant_witness :
  nth_error (event_union wrapped) 1 = Some Wrapped.WebhookRenewal /\
  nth_error (event_union wrapped) 5 = Some Wrapped.WebhookExpiration /\
  (exists t, tag_of Wrapped.WebhookRenewal = Some t) /\
  (tag_of Wrapped.WebhookRenewal = tag_of Wrapped.WebhookExpiration ->
   1%nat = 5%nat) /\
  (forall v, conforms Wrapped.WebhookRenewal v = true ->
             conforms Wrapped.WebhookExpiration v = true -> 1%nat = 5%nat).
Proof.
  split; [reflexivity|]. split; [reflexivity|].
  apply (discriminant_selects_one_variant wrapped 1 5); reflexivity.
Defined.

(** ** Reasons *)

Lemma Wrapped_ExpirationReason_values v :
  has_type Wrapped.ExpirationReason v = true <->
  has_type Wrapped.CancelReason v = true \/ v = JString "SUBSCRIPTION_PAUSED".
Proof.
  unfold Wrapped.ExpirationReason, Wrapped.CancelReason.
  rewrite !has_type_literals. split.
  - intros [s [-> Hin]]. simpl in Hin.
    repeat (destruct Hin as [<-|Hin];
            [ first [ now right | left; eexists; split; [reflexivity|];
                                  simpl; tauto ] | ]).
    contradiction.
  - intros [[s [-> Hin]] | ->]; eexists; (split; [reflexivity|]).
    + simpl in *. tauto.
    + simpl. tauto.
Qed.

Lemma Flat_ExpirationReason_values v :
  has_type Flat.ExpirationReason v = has_type Flat.CancelReason v.
Proof. reflexivity. Qed.

(** C2, on the code: the wrapped version's [ExpirationReason] is its
    [CancelReason] plus SUBSCRIPTION_PAUSED, as the claim says.  The flat
    version's [ExpirationReason] is its [CancelReason] and nothing more: it
    rejects SUBSCRIPTION_PAUSED, and with it an EXPIRATION event of that
    reason, the one its own comment on [WebhookSubscriptionPaused]
    announces. *)
Theorem ExpirationReason_and_paused :
  (forall v, has_type Wrapped.ExpirationReason v = true <->
             has_type Wrapped.CancelReason v = true \/
             v = JString "SUBSCRIPTION_PAUSED") /\
  (forall v, has_type Flat.ExpirationReason v = has_type Flat.CancelReason v) /\
  has_type Flat.ExpirationReason (JString "SUBSCRIPTION_PAUSED") = false /\
  conforms Flat.WebhookExpiration (JObject paused_expiration) = false /\
  Validate Flat.WebhookExpiration paused_expiration =
    [Violation "expiration_reason" Flat.ExpirationReason
       (Some (JString "SUBSCRIPTION_PAUSED"))] /\
  conforms Wrapped.WebhookExpiration (JObject paused_expiration) = true.
Proof.
  split; [exact Wrapped_ExpirationReason_values|].
  split; [exact Flat_ExpirationReason_values|].
  repeat split; vm_compute; reflexivity.
Qed.

(** ** The envelope's timestamps *)

Lemma envelope_variant_extends_base s i :
  In i (envelope_variants s) -> incl (WebhookBase_of s) i.
Proof.
  destruct s; intros H; each_member H; apply incl_appl, incl_refl.
Qed.

(** Every envelope-carrying variant of either version has payloads. *)
Lemma envelope_variants_inhabited s i :
  In i (envelope_variants s) ->
  exists t, tag_of i = Some t /\
            conforms i (JObject (envelope_sample t)) = true.
Proof.
  destruct s; intros H; each_member H;
    eexists; split; vm_compute; reflexivity.
Qed.

(** In either version, a payload of an envelope-carrying variant holds a
    number under [purchased_at_ms] and under [expiration_at_ms]. *)
Lemma envelope_timestamps_are_numbers s i kvs :
  In i (envelope_variants s) -> conforms i (JObject kvs) = true ->
  (exists q, lookup "purchased_at_ms" kvs = Some (JNumber q)) /\
  (exists q, lookup "expiration_at_ms" kvs = Some (JNumber q)).
Proof.
  intros Hi Hc. pose proof (envelope_variant_extends_base _ _ Hi) as Hb.
  assert (Hp : In (req "purchased_at_ms" TNumber) i)
    by (apply Hb; destruct s; simpl; tauto).
  assert (He : In (req "expiration_at_ms" TNumber) i)
    by (apply Hb; destruct s; simpl; tauto).
  destruct (conforms_required _ _ _ _ Hc Hp) as [x [Hx Tx]].
  destruct (conforms_required _ _ _ _ Hc He) as [y [Hy Ty]].
  destruct x; try discriminate Tx. destruct y; try discriminate Ty.
  eauto.
Qed.

(** C3, on the code: [purchased_at_ms] is a non-null number, as the claim
    says, but so is [expiration_at_ms], in both versions of the file: the
    envelope declares it [number], although its own comment says that it can
    be NULL for non-subscription purchases.  A NON_RENEWING_PURCHASE event
    whose [expiration_at_ms] is null is rejected, the same event with a
    number there is accepted. *)
Theorem expiration_at_ms_rejects_null :
  forall s,
    conforms (WebhookNonRenewingPurchase_of s)
      (JObject (non_renewing_purchase JNull)) = false /\
    Validate (WebhookNonRenewingPurchase_of s) (non_renewing_purchase JNull) =
      [Violation "expiration_at_ms" TNumber (Some JNull)] /\
    conforms (WebhookNonRenewingPurchase_of s)
      (JObject (non_renewing_purchase (JNumber 2000))) = true /\
    field_of (WebhookBase_of s) "expiration_at_ms" =
      Some (req "expiration_at_ms" TNumber) /\
    field_of (WebhookBase_of s) "purchased_at_ms" =
      Some (req "purchased_at_ms" TNumber) /\
    conforms (WebhookNonRenewingPurchase_of s)
      (JObject (update "purchased_at_ms" JNull
                  (non_renewing_purchase (JNumber 2000)))) = false.
Proof.
  intros []; repeat split; vm_compute; reflexivity.
Qed.

(** ** The two variants outside the envelope *)

(** C4: [WebhookTransfer] declares exactly eight properties, all required:
    the literal [type] "TRANSFER", [id], [app_id], [environment], [store],
    [event_timestamp_ms], and the two lists of app-user ids
    [transferred_from] and [transferred_to].  It has no [app_user_id]; of the
    envelope's properties it has the five named above and no other, and a
    payload holding the eight keys alone conforms to it (and to no
    envelope-carrying variant). *)
Theorem WebhookTransfer_fields :
  field_names Wrapped.WebhookTransfer =
    [ "type"; "id"; "app_id"; "environment"; "store"; "event_timestamp_ms";
      "transferred_from"; "transferred_to" ] /\
  map ftype Wrapped.WebhookTransfer =
    [ TLit "TRANSFER"; TString; TString; Wrapped.Environment; Wrapped.Store;
      TNumber; TArray TString; TArray TString ] /\
  existsb foptional Wrapped.WebhookTransfer = false /\
  tag_of Wrapped.WebhookTransfer = Some "TRANSFER" /\
  has_field Wrapped.WebhookTransfer "app_user_id" = false /\
  shared_with Wrapped.WebhookBase Wrapped.WebhookTransfer =
    [ "id"; "app_id"; "event_timestamp_ms"; "environment"; "store" ] /\
  conforms Wrapped.WebhookTransfer (JObject transfer_sample) = true /\
  map fst transfer_sample = field_names Wrapped.WebhookTransfer /\
  existsb (fun i => conforms i (JObject transfer_sample))
    Wrapped.envelope_variants = false.
Proof.
  repeat split; vm_compute; reflexivity.
Qed.

(** C5 as stated fails: the claim gives TEMPORARY_ENTITLEMENT_GRANT an [id]
    and a nullable [entitlement_ids].  The flat version of the interface
    declares no [id] and rejects a null [entitlement_ids]. *)
Lemma flat_grant_has_no_id_and_no_null_entitlements :
  has_field Flat.WebhookTemporaryEntitlementGrant "id" = false /\
  conforms Flat.WebhookTemporaryEntitlementGrant
    (JObject (grant_sample JNull)) = false /\
  conforms Flat.WebhookTemporaryEntitlementGrant
    (JObject (grant_sample (JArray [JString "pro"]))) = true.
Proof.
  repeat split; vm_compute; reflexivity.
Qed.

(** C5, amended: in neither version does TEMPORARY_ENTITLEMENT_GRANT extend
    the envelope, and in both it lacks [app_id], [price] and [currency].  In
    the wrapped version it declares exactly the ten required properties
    [type], [id], [app_user_id], [purchased_at_ms], [expiration_at_ms],
    [event_timestamp_ms], [product_id], [entitlement_ids], [store],
    [transaction_id], with [entitlement_ids] a list of strings or null.  In
    the flat version it declares the same ones except [id], and its
    [entitlement_ids] is a list of strings, not null. *)
Theorem WebhookTemporaryEntitlementGrant_fields :
  field_names Wrapped.WebhookTemporaryEntitlementGrant =
    [ "type"; "id"; "app_user_id"; "purchased_at_ms"; "expiration_at_ms";
      "event_timestamp_ms"; "product_id"; "entitlement_ids"; "store";
      "transaction_id" ] /\
  field_names Flat.WebhookTemporaryEntitlementGrant =
    [ "type"; "app_user_id"; "purchased_at_ms"; "expiration_at_ms";
      "event_timestamp_ms"; "product_id"; "entitlement_ids"; "store";
      "transaction_id" ] /\
  (forall s,
     tag_of (WebhookTemporaryEntitlementGrant_of s) =
       Some "TEMPORARY_ENTITLEMENT_GRANT" /\
     existsb foptional (WebhookTemporaryEntitlementGrant_of s) = false /\
     existsb (has_field (WebhookTemporaryEntitlementGrant_of s))
       ["app_id"; "price"; "currency"] = false /\
     forallb (has_field (WebhookTemporaryEntitlementGrant_of s))
       (field_names (WebhookBase_of s)) = false /\
     conforms (WebhookTemporaryEntitlementGrant_of s)
       (JObject (grant_sample (JArray [JString "pro"]))) = true /\
     conforms (WebhookTemporaryEntitlementGrant_of s)
       (JObject (grant_sample JNull)) =
       match s with wrapped => true | flat => false end) /\
  field_of Wrapped.WebhookTemporaryEntitlementGrant "entitlement_ids" =
    Some (req "entitlement_ids" (nullable (TArray TString))) /\
  field_of Flat.WebhookTemporaryEntitlementGrant "entitlement_ids" =
    Some (req "entitlement_ids" (TArray TString)) /\
  field_of Wrapped.WebhookTemporaryEntitlementGrant "id" =
    Some (req "id" TString) /\
  field_of Flat.WebhookTemporaryEntitlementGrant "id" = None.
Proof.
  repeat split; try destruct s; vm_compute; reflexivity.
Qed.

(** ** Prices *)

Lemma accepts_sound i k x f :
  accepts i k x = true -> In f i -> fname f = k -> has_type (ftype f) x = true.
Proof.
  unfold accepts. rewrite forallb_forall. intros H Hin Hk.
  specialize (H f Hin). rewrite Hk, String.eqb_refl in H. exact H.
Qed.

Lemma rejects_sound i k x :
  rejects i k x = true ->
  exists f, In f i /\ fname f = k /\ has_type (ftype f) x = false.
Proof.
  unfold rejects. rewrite existsb_exists. intros [f [Hin H]].
  apply andb_true_iff in H. destruct H as [Hk Hx].
  apply String.eqb_eq in Hk. apply negb_true_iff in Hx. eauto.
Qed.

Lemma conforms_update_accepted i kvs k x :
  accepts i k x = true -> conforms i (JObject kvs) = true ->
  conforms i (JObject (update k x kvs)) = true.
Proof.
  intros Ha Hc. apply conforms_update; [exact Hc|].
  intros f Hin Hk. eapply accepts_sound; eassumption.
Qed.

Lemma conforms_update_refused i kvs k x :
  rejects i k x = true -> conforms i (JObject (update k x kvs)) = false.
Proof.
  intros Hr. destruct (rejects_sound _ _ _ Hr) as [f [Hin [Hk Hx]]].
  eapply conforms_update_rejected; eassumption.
Qed.

(** C6 as stated fails: the claim lets every envelope-carrying variant take a
    null price.  The flat version's INITIAL_PURCHASE rejects a payload whose
    [price] is null, and accepts it with the number back. *)
Lemma flat_price_rejects_null :
  conforms Flat.WebhookInitialPurchase
    (JObject (update "price" JNull (retag "INITIAL_PURCHASE" full_example)))
    = false /\
  conforms Flat.WebhookInitialPurchase
    (JObject (retag "INITIAL_PURCHASE" full_example)) = true /\
  field_of Flat.WebhookBase "price" = Some (req "price" TNumber).
Proof.
  repeat split; vm_compute; reflexivity.
Qed.

(** C6, amended: in both versions of the file, every envelope-carrying
    variant takes any number, zero and negative ones included, for [price]
    and for [price_in_purchased_currency]: a conforming payload still
    conforms after either key is set to a number.  In the wrapped version it
    also still conforms after either key is set to null; in the flat version
    both are declared [number] and a payload with null there never
    conforms. *)
Theorem price_fields_permit
  (s : snapshot) (i : interface) (p : string) (kvs : list (string * json)) :
  In i (envelope_variants s) ->
  In p ["price"; "price_in_purchased_currency"] ->
  conforms i (JObject kvs) = true ->
  (forall q, conforms i (JObject (update p (JNumber q) kvs)) = true) /\
  conforms i (JObject (update p JNull kvs)) =
    match s with wrapped => true | flat => false end.
Proof.
  intros Hi Hp Hc.
  assert (Hnum : forall q, accepts i p (JNumber q) = true)
    by (intros q; destruct s; each_member Hi; each_member Hp; reflexivity).
  split.
  - intros q. now apply conforms_update_accepted.
  - destruct s.
    + apply conforms_update_accepted; [|exact Hc].
      each_member Hi; each_member Hp; reflexivity.
    + apply conforms_update_refused.
      each_member Hi; each_member Hp; reflexivity.
Qed.

(** A refund of a RENEWAL of the wrapped version: zero, a negative price and
    null are all taken. *)
Lemma price_fields_permit_witness :
  In Wrapped.WebhookRenewal (envelope_variants wrapped) /\
  In "price" ["price"; "price_in_purchased_currency"] /\
  conforms Wrapped.WebhookRenewal (JObject full_example) = true /\
  conforms Wrapped.WebhookRenewal
    (JObject (update "price" (JNumber 0) full_example)) = true /\
  conforms Wrapped.WebhookRenewal
    (JObject (update "price" (JNumber (- (999 # 100))) full_example)) = true /\
  conforms Wrapped.WebhookRenewal
    (JObject (update "price" JNull full_example)) = true.
Proof.
  assert (Hi : In Wrapped.WebhookRenewal (envelope_variants wrapped))
    by (simpl; tauto).
  assert (Hp : In "price" ["price"; "price_in_purchased_currency"])
    by (simpl; tauto).
  assert (Hc : conforms Wrapped.WebhookRenewal (JObject full_example) = true)
    by reflexivity.
  destruct (price_fields_permit wrapped _ "price" full_example Hi Hp Hc)
    as [Hnum Hnull].
  repeat split; try assumption; apply Hnum.
Defined.

(** ** PRODUCT_CHANGE *)

(** C7 as stated fails: the claim lets a PRODUCT_CHANGE leave
    [new_product_id] out.  The flat version declares the property without
    [?]: the payload without the key is rejected, the one with it accepted. *)
Lemma flat_new_product_id_is_required :
  conforms Flat.WebhookProductChange
    (JObject (retag "PRODUCT_CHANGE" full_example)) = false /\
  conforms Flat.WebhookProductChange
    (JObject (update "new_product_id" (JString "p2")
                (retag "PRODUCT_CHANGE" full_example))) = true /\
  declared_required Flat.WebhookProductChange "new_product_id" = true.
Proof.
  repeat split; vm_compute; reflexivity.
Qed.

(** C7, amended: in both versions [WebhookProductChange] extends the
    envelope with [new_product_id], a string: a conforming payload still
    conforms after the key is set to any string.  In the wrapped version the
    property is optional, and a conforming payload still conforms after the
    key is deleted; in the flat version it is required, and no payload
    without the key conforms. *)
Theorem new_product_id_optionality
  (s : snapshot) (kvs : list (string * json)) :
  conforms (WebhookProductChange_of s) (JObject kvs) = true ->
  (forall id, conforms (WebhookProductChange_of s)
                (JObject (update "new_product_id" (JString id) kvs)) = true) /\
  conforms (WebhookProductChange_of s)
    (JObject (remove "new_product_id" kvs)) =
    match s with wrapped => true | flat => false end /\
  declared_optional (WebhookProductChange_of s) "new_product_id" =
    match s with wrapped => true | flat => false end.
Proof.
  intros Hc. split; [|split].
  - intros id. apply conforms_update_accepted; [|exact Hc].
    destruct s; reflexivity.
  - destruct s.
    + apply conforms_remove; [exact Hc|].
      intros f Hin Hk. simpl in Hin.
      repeat (destruct Hin as [<-|Hin]; [try discriminate Hk; reflexivity|]).
      contradiction.
    + apply conforms_remove_required with (f := req "new_product_id" TString);
        [simpl; tauto | reflexivity | reflexivity].
  - destruct s; reflexivity.
Qed.

(** A wrapped PRODUCT_CHANGE without the key gains it and loses it again. *)
Lemma new_product_id_optionality_witness :
  conforms Wrapped.WebhookProductChange
    (JObject (retag "PRODUCT_CHANGE" full_example)) = true /\
  conforms Wrapped.WebhookProductChange
    (JObject (update "new_product_id" (JString "p2")
                (retag "PRODUCT_CHANGE" full_example))) = true /\
  conforms Wrapped.WebhookProductChange
    (JObject (remove "new_product_id"
                (retag "PRODUCT_CHANGE" full_example))) = true.
Proof.
  assert (Hc : conforms (WebhookProductChange_of wrapped)
                 (JObject (retag "PRODUCT_CHANGE" full_example)) = true)
    by reflexivity.
  destruct (new_product_id_optionality wrapped _ Hc) as [Hset [Hdel _]].
  split; [exact Hc|]. split; [apply Hset | exact Hdel].
Defined.

(** ** Narrowing *)

Lemma is_known_tag_In t : is_known_tag t = true <-> In t known_tags.
Proof.
  unfold is_known_tag. rewrite existsb_exists. split.
  - intros [x [Hin E]]. apply String.eqb_eq in E. now subst.
  - intros H. exists t. split; [exact H | apply String.eqb_refl].
Qed.

(** [Define] has a shape for each of the twelve tags, and its literal is
    the tag. *)
Lemma Define_known t :
  In t known_tags -> exists shape, Define t = Some shape /\ tag_of shape = Some t.
Proof.
  simpl. intros H.
  repeat (destruct H as [<-|H]; [eexists; split; vm_compute; reflexivity|]).
  contradiction.
Qed.

(** What [Narrow] returns, case by case. *)
Lemma Narrow_ok ev t ev' :
  Narrow ev = inr (t, ev') <->
  ev' = ev /\ lookup "type" ev = Some (JString t) /\ In t known_tags /\
  exists shape, Define t = Some shape /\ conforms shape (JObject ev) = true.
Proof.
  unfold Narrow. split.
  - destruct (lookup "type" ev) as [[| | |t'| |]|]; try discriminate.
    destruct (is_known_tag t') eqn:K; [|discriminate].
    destruct (Define t') as [shape|] eqn:D; [|discriminate].
    destruct (Validate shape ev) eqn:V; [|discriminate].
    intros H. inversion H; subst. apply is_known_tag_In in K.
    apply Validate_nil in V. eauto 8.
  - intros [-> [Hl [Hk [shape [D Hc]]]]].
    apply is_known_tag_In in Hk. apply Validate_nil in Hc.
    now rewrite Hl, Hk, D, Hc.
Qed.

Lemma Narrow_malformed ev vs :
  Narrow ev = inl (MalformedShape vs) ->
  vs <> [] /\
  exists t shape, lookup "type" ev = Some (JString t) /\ In t known_tags /\
                  Define t = Some shape /\ Validate shape ev = vs.
Proof.
  unfold Narrow.
  destruct (lookup "type" ev) as [[| | |t'| |]|]; try discriminate.
  destruct (is_known_tag t') eqn:K; [|discriminate].
  destruct (Define t') as [shape|] eqn:D; [|discriminate].
  destruct (Validate shape ev) eqn:V; [discriminate|].
  intros H. inversion H; subst. apply is_known_tag_In in K.
  split; [discriminate | eauto 8].
Qed.

(** C8: [Narrow] is a total function, so it never crashes; on every object
    whose [type] is not one of the twelve known literals (absent and
    non-string [type] included) it returns [UnknownEventType], which is
    neither a [MalformedShape] nor a narrowed event. *)
Theorem Narrow_unknown_type (ev : list (string * json)) :
  (forall t, lookup "type" ev = Some (JString t) -> ~ In t known_tags) ->
  Narrow ev = inl UnknownEventType /\
  (forall vs, Narrow ev <> inl (MalformedShape vs)) /\
  (forall r, Narrow ev <> inr r).
Proof.
  intros H.
  assert (E : Narrow ev = inl UnknownEventType).
  { unfold Narrow.
    destruct (lookup "type" ev) as [[| | |t| |]|]; try reflexivity.
    destruct (is_known_tag t) eqn:K; [|reflexivity].
    apply is_known_tag_In in K. exfalso. exact (H t eq_refl K). }
  rewrite E. repeat split; intros; discriminate.
Qed.

(** The spec's own instance: an object of type SOME_FUTURE_TYPE. *)
Lemma Narrow_unknown_type_witness :
  Narrow [("type", JString "SOME_FUTURE_TYPE")] = inl UnknownEventType /\
  (forall vs, Narrow [("type", JString "SOME_FUTURE_TYPE")]
              <> inl (MalformedShape vs)) /\
  (forall r, Narrow [("type", JString "SOME_FUTURE_TYPE")] <> inr r).
Proof.
  apply (Narrow_unknown_type [("type", JString "SOME_FUTURE_TYPE")]).
  intros t Ht. simpl in Ht. inversion Ht; subst t.
  simpl. intros H.
  repeat (destruct H as [H|H]; [discriminate H|]). exact H.
Defined.

(** ** The end-to-end example *)

(** C9 as stated fails: the claim has the example conform to the RENEWAL
    shape as it is, without the keys [entitlement_id],
    [presented_offering_id], [renewal_number] and [metadata].  The interface
    declares the four without [?], so the example does not conform (in
    either version of the file) and [Narrow] returns [MalformedShape]. *)
Lemma spec_example_is_malformed :
  conforms Wrapped.WebhookRenewal (JObject spec_example) = false /\
  conforms Flat.WebhookRenewal (JObject spec_example) = false /\
  map (fun n => lookup n spec_example)
    ["entitlement_id"; "presented_offering_id"; "renewal_number"; "metadata"]
    = [None; None; None; None] /\
  forallb (declared_required Wrapped.WebhookRenewal)
    ["entitlement_id"; "presented_offering_id"; "renewal_number"; "metadata"]
    = true /\
  (forall r, Narrow spec_example <> inr r).
Proof.
  repeat split; try (vm_compute; reflexivity).
  intros r. vm_compute. discriminate.
Qed.

(** C9, amended: on the example as given, [Narrow] returns [MalformedShape]
    with exactly four violations, the absent required keys [entitlement_id],
    [presented_offering_id], [renewal_number] and [metadata].  With these
    four keys present and null, the object conforms to the RENEWAL shape,
    [Narrow] returns it under the tag RENEWAL, its [is_trial_conversion] is
    true, and every required property of the envelope is accessible. *)
Theorem spec_example_needs_nullable_keys :
  Narrow spec_example =
    inl (MalformedShape
           [ Violation "entitlement_id" (nullable TString) None;
             Violation "presented_offering_id" (nullable TString) None;
             Violation "renewal_number" (TUnion [TNull; TNumber]) None;
             Violation "metadata" (TUnion [TNull; TAny]) None ]) /\
  full_example =
    spec_example ++
    [ ("entitlement_id", JNull); ("presented_offering_id", JNull);
      ("renewal_number", JNull); ("metadata", JNull) ] /\
  conforms Wrapped.WebhookRenewal (JObject full_example) = true /\
  Narrow full_example = inr ("RENEWAL", full_example) /\
  lookup "is_trial_conversion" full_example = Some (JBool true) /\
  forallb (fun f => match lookup (fname f) full_example with
                    | Some _ => true
                    | None => foptional f
                    end) Wrapped.WebhookBase = true.
Proof.
  repeat split; vm_compute; reflexivity.
Qed.

(** * Further properties of the declarations *)

(** ** Tools *)

Lemma distinct_NoDup l : distinct l = true -> NoDup l.
Proof.
  induction l as [|x rest IH]; simpl; intros H; constructor.
  - apply andb_true_iff in H. destruct H as [H _].
    apply negb_true_iff in H. intros Hin.
    assert (E : existsb (String.eqb x) rest = true)
      by (apply existsb_exists; exists x; split;
          [exact Hin | apply String.eqb_refl]).
    congruence.
  - apply IH. apply andb_true_iff in H. tauto.
Qed.

Lemma NoDup_map_In_inj {A B : Type} (f : A -> B) (l : list A) x y :
  NoDup (map f l) -> In x l -> In y l -> f x = f y -> x = y.
Proof.
  induction l as [|a l IH]; simpl; [contradiction|].
  intros ND Hx Hy E. inversion ND as [|? ? Hnin ND']; subst.
  destruct Hx as [->|Hx], Hy as [->|Hy]; auto.
  - exfalso. apply Hnin. rewrite E. now apply in_map.
  - exfalso. apply Hnin. rewrite <- E. now apply in_map.
Qed.

(** No interface of the file declares a property twice. *)
Lemma member_names_distinct s i :
  In i (event_union s) -> NoDup (field_names i).
Proof.
  destruct s; intros H; each_member H;
    apply distinct_NoDup; vm_compute; reflexivity.
Qed.

Lemma envelope_variant_is_member s i :
  In i (envelope_variants s) -> In i (event_union s).
Proof.
  destruct s; intros H; each_member H; simpl; tauto.
Qed.

Lemma conforms_app i j v :
  conforms (i ++ j) v = conforms i v && conforms j v.
Proof.
  destruct v; try reflexivity. rewrite !conforms_unfold. apply forallb_app.
Qed.

Lemma conforms_incl i j v :
  incl j i -> conforms i v = true -> conforms j v = true.
Proof.
  intros Hincl Hc. destruct (conforms_object _ _ Hc) as [kvs ->].
  rewrite conforms_unfold, forallb_forall in *. auto.
Qed.

(** In an interface without repeated names, a conforming payload stays
    conforming under [o.k = x] exactly when [x] has the declared type of
    [k], and under [delete o.k] exactly when [k] is optional. *)
Lemma conforms_set i f kvs x :
  NoDup (field_names i) -> In f i -> conforms i (JObject kvs) = true ->
  conforms i (JObject (update (fname f) x kvs)) = has_type (ftype f) x.
Proof.
  intros ND Hin Hc. destruct (has_type (ftype f) x) eqn:Hx.
  - apply conforms_update; [exact Hc|]. intros g Hg E.
    assert (g = f) by (eapply NoDup_map_In_inj; eassumption). now subst.
  - eapply conforms_update_rejected; [exact Hin | reflexivity | exact Hx].
Qed.

Lemma conforms_unset i f kvs :
  NoDup (field_names i) -> In f i -> conforms i (JObject kvs) = true ->
  conforms i (JObject (remove (fname f) kvs)) = foptional f.
Proof.
  intros ND Hin Hc. destruct (foptional f) eqn:Ho.
  - apply conforms_remove; [exact Hc|]. intros g Hg E.
    assert (g = f) by (eapply NoDup_map_In_inj; eassumption). now subst.
  - eapply conforms_remove_required; [exact Hin | reflexivity | exact Ho].
Qed.

(** A key that the interface does not declare is not looked at. *)
Lemma conforms_undeclared i kvs k x :
  has_field i k = false ->
  conforms i (JObject (update k x kvs)) = conforms i (JObject kvs).
Proof.
  intros Hk. rewrite !conforms_unfold.
  assert (Hf : forall f, In f i -> field_ok (update k x kvs) f = field_ok kvs f).
  { intros f Hin. unfold field_ok. rewrite lookup_update_neq; [reflexivity|].
    intros E. unfold has_field in Hk.
    assert (existsb (String.eqb k) (field_names i) = true); [|congruence].
    apply existsb_exists. exists (fname f). split.
    - now apply in_map.
    - rewrite E. apply String.eqb_refl. }
  clear Hk. induction i as [|f fs IH]; simpl; [reflexivity|].
  rewrite Hf by (simpl; tauto). rewrite IH; [reflexivity|].
  intros g Hg. apply Hf. simpl. tauto.
Qed.

Lemma field_of_In i n f : field_of i n = Some f -> In f i /\ fname f = n.
Proof.
  unfold field_of. intros H. apply find_some in H. destruct H as [Hin E].
  apply String.eqb_eq in E. auto.
Qed.

Lemma members_tag_inj s i j :
  In i (event_union s) -> In j (event_union s) -> tag_of i = tag_of j -> i = j.
Proof.
  apply NoDup_map_In_inj. exact (union_tags_NoDup s).
Qed.

(** ** Every declared property counts, and on its own *)

(** X1: in every interface of either union no property is declared twice,
    so each declaration is enforced by itself.  On a conforming payload,
    [o.k = x] for a declared [k] gives a conforming payload exactly when [x]
    has the declared type of [k], and [delete o.k] gives one exactly when
    [k] is declared with [?]. *)
Theorem declared_property_enforced
  (s : snapshot) (i : interface) (f : field ty)
  (kvs : list (string * json)) (x : json) :
  In i (event_union s) -> In f i -> conforms i (JObject kvs) = true ->
  conforms i (JObject (update (fname f) x kvs)) = has_type (ftype f) x /\
  conforms i (JObject (remove (fname f) kvs)) = foptional f.
Proof.
  intros Hi Hf Hc. pose proof (member_names_distinct _ _ Hi) as ND.
  split; [now apply conforms_set | now apply conforms_unset].
Qed.

(** A TRANSFER may be to nobody, but not without [transferred_to]. *)
Lemma declared_property_enforced_witness :
  conforms Wrapped.WebhookTransfer
    (JObject (update "transferred_to" (JArray []) transfer_sample)) = true /\
  conforms Wrapped.WebhookTransfer
    (JObject (remove "transferred_to" transfer_sample)) = false.
Proof.
  apply (declared_property_enforced wrapped Wrapped.WebhookTransfer
           (req "transferred_to" (TArray TString)) transfer_sample (JArray [])).
  - simpl; tauto.
  - simpl; tauto.
  - reflexivity.
Defined.

(** ** The union *)

(** X2: a payload is a wrapped [Webhook] exactly when it is an object whose
    [api_version] is a string and whose [event] conforms to a member of the
    union; the discriminant is [event.type], the [type] of that object. *)
Theorem Wrapped_Webhook_payload (v : json) :
  has_type Wrapped.Webhook v = true <->
  exists kvs api ev,
    v = JObject kvs /\
    lookup "api_version" kvs = Some (JString api) /\
    lookup "event" kvs = Some ev /\
    exists i t kvs',
      In i Wrapped.event /\ conforms i ev = true /\ tag_of i = Some t /\
      ev = JObject kvs' /\ lookup "type" kvs' = Some (JString t).
Proof.
  unfold Wrapped.Webhook. split.
  - intros H. change (conforms [req "api_version" TString;
                                req "event" (event_type wrapped)] v = true) in H.
    destruct (conforms_object _ _ H) as [kvs ->].
    destruct (conforms_required _ _ "api_version" TString H) as [a [Ha Ta]];
      [simpl; tauto|].
    destruct (conforms_required _ _ "event" (event_type wrapped) H)
      as [ev [He Te]]; [simpl; tauto|].
    destruct a; try discriminate Ta.
    apply has_type_union_of_interfaces in Te. destruct Te as [i [Hi Hc]].
    destruct (union_tags_Some wrapped i Hi) as [t Ht].
    destruct (conforms_tag _ _ _ Hc Ht) as [kvs' [-> Hl]].
    exists kvs, s, (JObject kvs'). repeat split; try assumption.
    exists i, t, kvs'. auto.
  - intros [kvs [api [ev [-> [Ha [He [i [t [kvs' [Hi [Hc _]]]]]]]]]]].
    change (conforms [req "api_version" TString;
                      req "event" (event_type wrapped)] (JObject kvs) = true).
    assert (Hu : has_type (event_type wrapped) ev = true)
      by (apply has_type_union_of_interfaces; eauto).
    rewrite conforms_unfold.
    change (field_ok kvs (req "api_version" TString) &&
            (field_ok kvs (req "event" (event_type wrapped)) && true) = true).
    unfold field_ok, req. cbn [fname ftype]. now rewrite Ha, He, Hu.
Qed.

(** A TRANSFER delivered under API version 1.0. *)
Lemma Wrapped_Webhook_payload_witness :
  has_type Wrapped.Webhook
    (JObject [("api_version", JString "1.0");
              ("event", JObject transfer_sample)]) = true /\
  has_type Wrapped.Webhook (JObject transfer_sample) = false.
Proof.
  split; [|reflexivity].
  apply (proj2 (Wrapped_Webhook_payload _)).
  exists [("api_version", JString "1.0"); ("event", JObject transfer_sample)],
    "1.0", (JObject transfer_sample).
  repeat split.
  exists Wrapped.WebhookTransfer, "TRANSFER", transfer_sample.
  repeat split. simpl; tauto.
Defined.

(** X3: every payload of the union is an object whose [type] is the literal
    of one of the members: one of the twelve tags in the wrapped version,
    one of the eleven in the flat version, where a TRANSFER payload is
    therefore no [Webhook]. *)
Theorem union_payload_is_tagged (s : snapshot) (v : json) :
  has_type (event_type s) v = true ->
  exists kvs t,
    v = JObject kvs /\ lookup "type" kvs = Some (JString t) /\
    In t (match s with wrapped => known_tags | flat => flat_tags end) /\
    (s = flat -> t <> "TRANSFER").
Proof.
  intros H. apply has_type_union_of_interfaces in H.
  destruct H as [i [Hi Hc]].
  destruct (union_tags_Some s i Hi) as [t Ht].
  destruct (conforms_tag _ _ _ Hc Ht) as [kvs [-> Hl]].
  exists kvs, t. split; [reflexivity|]. split; [exact Hl|].
  clear Hc Hl.
  destruct s; each_member Hi; vm_compute in Ht; inversion Ht; subst t;
    (split; [simpl; tauto | intros; discriminate]).
Qed.

Lemma union_payload_is_tagged_witness :
  has_type Flat.Webhook (JObject (envelope_sample "EXPIRATION")) = true /\
  exists kvs t,
    JObject (envelope_sample "EXPIRATION") = JObject kvs /\
    lookup "type" kvs = Some (JString t) /\ In t flat_tags /\
    (flat = flat -> t <> "TRANSFER").
Proof.
  assert (H : has_type (event_type flat)
                (JObject (envelope_sample "EXPIRATION")) = true)
    by reflexivity.
  split; [exact H|]. exact (union_payload_is_tagged flat _ H).
Defined.

(** X4: narrowing by the discriminant is sound.  When a payload of the
    union carries the literal of a member under [type], it conforms to that
    member: after [case "RENEWAL"] the value is a [WebhookRenewal]. *)
Theorem narrowing_by_type
  (s : snapshot) (i : interface) (t : string) (kvs : list (string * json)) :
  In i (event_union s) -> tag_of i = Some t ->
  has_type (event_type s) (JObject kvs) = true ->
  lookup "type" kvs = Some (JString t) ->
  conforms i (JObject kvs) = true.
Proof.
  intros Hi Ht Hu Hl. apply has_type_union_of_interfaces in Hu.
  destruct Hu as [j [Hj Hc]].
  destruct (union_tags_Some s j Hj) as [tj Htj].
  destruct (conforms_tag _ _ _ Hc Htj) as [kvs' [E Hl']].
  inversion E; subst kvs'.
  assert (tj = t) by congruence. subst tj.
  assert (i = j) by (eapply members_tag_inj; eauto; congruence).
  now subst.
Qed.

Lemma narrowing_by_type_witness :
  conforms Flat.WebhookRenewal (JObject (envelope_sample "RENEWAL")) = true.
Proof.
  apply (narrowing_by_type flat Flat.WebhookRenewal "RENEWAL").
  - simpl; tauto.
  - reflexivity.
  - reflexivity.
  - reflexivity.
Defined.

(** ** The envelope *)

(** X5: [extends WebhookBase] is subtyping.  A payload of any
    envelope-carrying variant conforms to the [WebhookBase] of its
    version. *)
Theorem envelope_variant_is_WebhookBase
  (s : snapshot) (i : interface) (v : json) :
  In i (envelope_variants s) -> conforms i v = true ->
  conforms (WebhookBase_of s) v = true.
Proof.
  intros Hi. apply conforms_incl. now apply envelope_variant_extends_base.
Qed.

Lemma envelope_variant_is_WebhookBase_witness :
  conforms Wrapped.WebhookBase (JObject (envelope_sample "BILLING_ISSUE"))
  = true.
Proof.
  apply (envelope_variant_is_WebhookBase wrapped Wrapped.WebhookBillingIssue).
  - simpl; tauto.
  - reflexivity.
Defined.

Lemma required_literal i kvs n ls :
  field_of i n = Some (req n (literals ls)) ->
  conforms i (JObject kvs) = true ->
  exists v, lookup n kvs = Some (JString v) /\ In v ls.
Proof.
  intros F Hc. apply field_of_In in F. destruct F as [Hin _].
  destruct (conforms_required _ _ _ _ Hc Hin) as [x [Hl Hx]].
  apply has_type_literals in Hx. destruct Hx as [v [-> Hv]]. eauto.
Qed.

Lemma required_number i kvs n :
  field_of i n = Some (req n TNumber) ->
  conforms i (JObject kvs) = true ->
  exists q, lookup n kvs = Some (JNumber q).
Proof.
  intros F Hc. apply field_of_In in F. destruct F as [Hin _].
  destruct (conforms_required _ _ _ _ Hc Hin) as [x [Hl Hx]].
  destruct x; try discriminate Hx. eauto.
Qed.

(** X6: what can be read from an event before narrowing.  The properties
    declared by every member are [id], [event_timestamp_ms], [store] and
    [type] in the wrapped union (the flat one has nine, but not [id]); on
    every payload of every member [event_timestamp_ms] is a number and
    [store] one of the six store literals, and wherever [environment] is
    declared, on all members but TEMPORARY_ENTITLEMENT_GRANT, it is SANDBOX
    or PRODUCTION. *)
Theorem readable_before_narrowing
  (s : snapshot) (i : interface) (kvs : list (string * json)) :
  In i (event_union s) -> conforms i (JObject kvs) = true ->
  common_fields (event_union s) =
    match s with
    | wrapped => ["id"; "event_timestamp_ms"; "store"; "type"]
    | flat => ["event_timestamp_ms"; "product_id"; "purchased_at_ms";
               "expiration_at_ms"; "entitlement_ids"; "transaction_id";
               "app_user_id"; "store"; "type"]
    end /\
  (exists q, lookup "event_timestamp_ms" kvs = Some (JNumber q)) /\
  (exists st, lookup "store" kvs = Some (JString st) /\ In st store_values) /\
  (tag_of i <> Some "TEMPORARY_ENTITLEMENT_GRANT" ->
   exists e, lookup "environment" kvs = Some (JString e) /\
             In e environment_values) /\
  (tag_of i = Some "TEMPORARY_ENTITLEMENT_GRANT" ->
   has_field i "environment" = false).
Proof.
  intros Hi Hc. split; [destruct s; reflexivity|].
  split; [|split; [|split]].
  - apply (required_number i); [|exact Hc].
    destruct s; each_member Hi; reflexivity.
  - apply (required_literal i); [|exact Hc].
    destruct s; each_member Hi; reflexivity.
  - intros Ht. apply (required_literal i); [|exact Hc].
    destruct s; each_member Hi; first [reflexivity | exfalso; now apply Ht].
  - intros Ht.
    destruct s; each_member Hi; first [reflexivity | discriminate Ht].
Qed.

Lemma readable_before_narrowing_witness :
  (exists q, lookup "event_timestamp_ms" transfer_sample = Some (JNumber q)) /\
  (exists st, lookup "store" transfer_sample = Some (JString st) /\
              In st store_values) /\
  (exists e, lookup "environment" transfer_sample = Some (JString e) /\
             In e environment_values).
Proof.
  assert (Hi : In Wrapped.WebhookTransfer (event_union wrapped))
    by (simpl; tauto).
  assert (Hc : conforms Wrapped.WebhookTransfer (JObject transfer_sample)
               = true) by reflexivity.
  destruct (readable_before_narrowing wrapped _ _ Hi Hc)
    as [_ [Hts [Hst [Henv _]]]].
  split; [exact Hts|]. split; [exact Hst|].
  apply Henv. vm_compute. discriminate.
Defined.

(** ** Variants that differ by their tag alone *)

Lemma retag_extends base own t kvs :
  has_field base "type" = false ->
  conforms (extends base own) (JObject kvs) = true ->
  conforms (extends base [req "type" (TLit t)]) (JObject (retag t kvs)) = true.
Proof.
  unfold extends, retag. rewrite !conforms_app.
  intros Hb Hc. apply andb_true_iff in Hc. destruct Hc as [Hc _].
  rewrite conforms_undeclared by exact Hb. rewrite Hc.
  rewrite conforms_unfold.
  change (field_ok (update "type" (JString t) kvs) (req "type" (TLit t)) && true
          = true).
  unfold field_ok, req. cbn [fname ftype].
  rewrite lookup_update_eq. cbn [has_type]. now rewrite String.eqb_refl.
Qed.

(** X7: the variants whose body is the literal [type] alone (INITIAL_PURCHASE,
    UNCANCELLATION, NON_RENEWING_PURCHASE, SUBSCRIPTION_EXTENDED, and in the
    flat version RENEWAL and BILLING_ISSUE too) differ from any other
    envelope-carrying variant by the tag only: a payload of an
    envelope-carrying variant, with [type] overwritten by the tag of such a
    variant, conforms to it. *)
Theorem plain_variant_by_retagging
  (s : snapshot) (i j : interface) (t : string) (kvs : list (string * json)) :
  In i (envelope_variants s) -> In j (plain_variants s) ->
  tag_of j = Some t -> conforms i (JObject kvs) = true ->
  conforms j (JObject (retag t kvs)) = true.
Proof.
  intros Hi Hj Ht Hc.
  destruct s; each_member Hj; vm_compute in Ht; inversion Ht; subst t;
    each_member Hi;
    (eapply retag_extends; [reflexivity | exact Hc]).
Qed.

(** A wrapped CANCELLATION read as an UNCANCELLATION. *)
Lemma plain_variant_by_retagging_witness :
  conforms Wrapped.WebhookCancellation
    (JObject (envelope_sample "CANCELLATION")) = true /\
  conforms Wrapped.WebhookUnCancellation
    (JObject (retag "UNCANCELLATION" (envelope_sample "CANCELLATION"))) = true.
Proof.
  assert (Hc : conforms Wrapped.WebhookCancellation
                 (JObject (envelope_sample "CANCELLATION")) = true)
    by reflexivity.
  split; [exact Hc|].
  apply (plain_variant_by_retagging wrapped Wrapped.WebhookCancellation
           Wrapped.WebhookUnCancellation "UNCANCELLATION"
           (envelope_sample "CANCELLATION")).
  - simpl; tauto.
  - simpl; tauto.
  - reflexivity.
  - exact Hc.
Defined.

(** ** Reasons, additions of the wrapped version, nullability *)

Lemma property_contract i n f kvs x :
  distinct (field_names i) = true -> field_of i n = Some f ->
  conforms i (JObject kvs) = true ->
  conforms i (JObject (update n x kvs)) = has_type (ftype f) x /\
  conforms i (JObject (remove n kvs)) = foptional f.
Proof.
  intros D F Hc. apply distinct_NoDup in D.
  apply field_of_In in F. destruct F as [Hin <-].
  split; [now apply conforms_set | now apply conforms_unset].
Qed.


(** X8: [cancel_reason] of a CANCELLATION and [expiration_reason] of an
    EXPIRATION or a SUBSCRIPTION_PAUSED are required and closed: a conforming
    payload holds one of the literals of the enumeration there, overwriting
    the key keeps the payload conforming exactly for these literals, and
    deleting the key never does.  The literals are the six cancel reasons,
    and for [expiration_reason] of the wrapped version SUBSCRIPTION_PAUSED
    as a seventh. *)
Theorem reason_is_required_and_closed
  (s : snapshot) (i : interface) (k : string) (ls : list string)
  (kvs : list (string * json)) :
  In (i, (k, ls)) (reason_fields s) -> conforms i (JObject kvs) = true ->
  (exists r, lookup k kvs = Some (JString r) /\ In r ls) /\
  (forall x, conforms i (JObject (update k x kvs)) = true <->
             exists r, x = JString r /\ In r ls) /\
  conforms i (JObject (remove k kvs)) = false.
Proof.
  intros Hi Hc.
  assert (F : field_of i k = Some (req k (literals ls)) /\
              distinct (field_names i) = true)
    by (destruct s; each_entry Hi; split; reflexivity).
  destruct F as [F D]. split; [|split].
  - now apply (required_literal i).
  - intros x. destruct (property_contract i k _ kvs x D F Hc) as [-> _].
    apply has_type_literals.
  - now destruct (property_contract i k _ kvs JNull D F Hc) as [_ ->].
Qed.

(** A wrapped EXPIRATION may be re-reasoned SUBSCRIPTION_PAUSED, and no
    payload can lose its reason. *)
Lemma reason_is_required_and_closed_witness :
  conforms Wrapped.WebhookExpiration
    (JObject (update "expiration_reason" (JString "SUBSCRIPTION_PAUSED")
                (envelope_sample "EXPIRATION"))) = true /\
  conforms Wrapped.WebhookExpiration
    (JObject (remove "expiration_reason" (envelope_sample "EXPIRATION")))
  = false.
Proof.
  assert (Hi : In (Wrapped.WebhookExpiration,
                   ("expiration_reason", expiration_reasons wrapped))
                 (reason_fields wrapped)) by (simpl; tauto).
  assert (Hc : conforms Wrapped.WebhookExpiration
                 (JObject (envelope_sample "EXPIRATION")) = true)
    by reflexivity.
  destruct (reason_is_required_and_closed wrapped _ _ _ _ Hi Hc)
    as [_ [Hset Hdel]].
  split; [|exact Hdel].
  apply Hset. exists "SUBSCRIPTION_PAUSED". split; [reflexivity|].
  simpl; tauto.
Defined.



(** X10: null and absence in the envelope.  For every envelope-carrying
    variant and every property of [WebhookBase], a conforming payload stays
    conforming with null under the key exactly for the properties declared
    with [| null] (in the wrapped version [entitlement_id],
    [entitlement_ids], [presented_offering_id], [price],
    [price_in_purchased_currency], [renewal_number], [metadata] and
    [offer_code]; in the flat version [entitlement_id],
    [presented_offering_id] and [offer_code]), and stays conforming without
    the key exactly for the four declared with [?] (the three percentages
    and [offer_code]).  So [currency], [tax_percentage] and
    [commission_percentage] take no null. *)
Theorem envelope_null_and_absence
  (s : snapshot) (i : interface) (f : field ty) (kvs : list (string * json)) :
  In i (envelope_variants s) -> In f (WebhookBase_of s) ->
  conforms i (JObject kvs) = true ->
  conforms i (JObject (update (fname f) JNull kvs)) =
    existsb (String.eqb (fname f)) (null_permitted s) /\
  conforms i (JObject (remove (fname f) kvs)) =
    existsb (String.eqb (fname f)) absence_permitted.
Proof.
  intros Hi Hf Hc.
  pose proof (envelope_variant_extends_base _ _ Hi _ Hf) as Hin.
  pose proof (member_names_distinct _ _ (envelope_variant_is_member _ _ Hi))
    as ND.
  rewrite (conforms_set _ _ _ JNull ND Hin Hc).
  rewrite (conforms_unset _ _ _ ND Hin Hc).
  clear Hin ND Hc Hi.
  destruct s; each_member Hf; split; reflexivity.
Qed.

(** A wrapped INITIAL_PURCHASE: a null [currency] is refused, a null
    [entitlement_ids] is taken, and [entitlement_ids] cannot be left out. *)
Lemma envelope_null_and_absence_witness :
  conforms Wrapped.WebhookInitialPurchase
    (JObject (update "currency" JNull (envelope_sample "INITIAL_PURCHASE")))
  = false /\
  conforms Wrapped.WebhookInitialPurchase
    (JObject (update "entitlement_ids" JNull
                (envelope_sample "INITIAL_PURCHASE"))) = true /\
  conforms Wrapped.WebhookInitialPurchase
    (JObject (remove "entitlement_ids" (envelope_sample "INITIAL_PURCHASE")))
  = false.
Proof.
  assert (Hi : In Wrapped.WebhookInitialPurchase (envelope_variants wrapped))
    by (simpl; tauto).
  assert (Hc : conforms Wrapped.WebhookInitialPurchase
                 (JObject (envelope_sample "INITIAL_PURCHASE")) = true)
    by reflexivity.
  assert (H1 : In (req "currency" TString) (WebhookBase_of wrapped))
    by (simpl; tauto).
  assert (H2 : In (req "entitlement_ids" (nullable (TArray TString)))
                 (WebhookBase_of wrapped)) by (simpl; tauto).
  destruct (envelope_null_and_absence wrapped _ _ _ Hi H1 Hc) as [Hcur _].
  destruct (envelope_null_and_absence wrapped _ _ _ Hi H2 Hc) as [Hnull Hdel].
  split; [exact Hcur|]. split; [exact Hnull | exact Hdel].
Defined.

(** ** Attributes *)

(** X11: a payload is an [Attributes] map, in either version, exactly when
    it is an object each of whose entries, whatever its key, is an object
    with a number under [updated_at_ms] and a string under [value]; the
    empty object is one. *)
Theorem Attributes_payload (v : json) :
  has_type Flat.Attributes v = has_type Wrapped.Attributes v /\
  (has_type Wrapped.Attributes v = true <->
   exists m, v = JObject m /\
             forall k x, In (k, x) m ->
                         exists kvs t val,
                           x = JObject kvs /\
                           lookup "updated_at_ms" kvs = Some (JNumber t) /\
                           lookup "value" kvs = Some (JString val)).
Proof.
  split; [reflexivity|]. unfold Wrapped.Attributes. split.
  - intros H. destruct v; try discriminate H. exists members.
    split; [reflexivity|]. intros k x Hin. cbn [has_type] in H.
    rewrite forallb_forall in H. specialize (H (k, x) Hin). cbn [snd] in H.
    change (conforms [req "updated_at_ms" TNumber; req "value" TString] x
            = true) in H.
    destruct (conforms_object _ _ H) as [kvs ->].
    destruct (conforms_required _ _ "updated_at_ms" TNumber H) as [a [Ha Ta]];
      [simpl; tauto|].
    destruct (conforms_required _ _ "value" TString H) as [b [Hb Tb]];
      [simpl; tauto|].
    destruct a; try discriminate Ta. destruct b; try discriminate Tb.
    eauto 8.
  - intros [m [-> H]]. cbn [has_type]. apply forallb_forall.
    intros [k x] Hin. cbn [snd].
    destruct (H k x Hin) as [kvs [t [val [-> [Ht Hv]]]]].
    change (forallb (field_ok kvs)
              [req "updated_at_ms" TNumber; req "value" TString] = true).
    cbn [forallb]. unfold field_ok, req. cbn [fname ftype].
    now rewrite Ht, Hv.
Qed.

(** A reserved and a custom attribute. *)
Lemma Attributes_payload_witness :
  has_type Wrapped.Attributes
    (JObject [("$idfa", attribute 1000 "A1"); ("plan", attribute 2000 "pro")])
  = true.
Proof.
  apply (proj2 (proj2 (Attributes_payload _))).
  eexists. split; [reflexivity|]. intros k x Hin.
  each_entry Hin; unfold attribute; do 3 eexists;
    (split; [reflexivity|]); split; reflexivity.
Defined.

(** ** From one version to the other *)

Lemma field_ok_from i kvs g f :
  conforms i (JObject kvs) = true -> field_of i (fname g) = Some f ->
  (foptional f = true -> foptional g = true) ->
  (forall x, has_type (ftype f) x = true -> has_type (ftype g) x = true) ->
  field_ok kvs g = true.
Proof.
  intros Hc F Ho Ht. apply field_of_In in F. destruct F as [Hin E].
  pose proof (conforms_field _ _ _ Hc Hin) as Hf.
  unfold field_ok in *. rewrite E in Hf.
  destruct (lookup (fname g) kvs); auto.
Qed.

Lemma has_type_nullable t x :
  has_type t x = true -> has_type (nullable t) x = true.
Proof. intros H. cbn [nullable has_type existsb]. now rewrite H. Qed.

Lemma has_type_literals_incl ls ls' x :
  incl ls ls' -> has_type (literals ls) x = true ->
  has_type (literals ls') x = true.
Proof.
  intros Hincl H. apply has_type_literals in H. apply has_type_literals.
  destruct H as [s [-> Hs]]. eauto.
Qed.

Lemma field_ok_upgrade kvs g :
  fname g <> "metadata" -> fname g <> "renewal_number" ->
  field_ok (upgrade kvs) g = field_ok kvs g.
Proof.
  intros H1 H2. unfold field_ok, upgrade.
  now rewrite !lookup_update_neq by assumption.
Qed.

Lemma field_ok_upgrade_null kvs n o t :
  n = "metadata" \/ n = "renewal_number" -> has_type t JNull = true ->
  field_ok (upgrade kvs) (Field n o t) = true.
Proof.
  intros Hn Ht. unfold field_ok, upgrade. cbn [fname ftype].
  destruct Hn as [-> | ->].
  - now rewrite lookup_update_eq.
  - rewrite lookup_update_neq by discriminate. now rewrite lookup_update_eq.
Qed.

(** One type of the flat version against its wrapped counterpart. *)
Ltac wider :=
  first [ exact (fun x Hx => Hx)
        | exact (fun x => has_type_nullable _ x)
        | intros x;
          apply (has_type_literals_incl cancel_reasons
                   (expiration_reasons wrapped));
          let a := fresh "a" in let Ha := fresh "Ha" in
          intros a Ha; each_member Ha; simpl; tauto ].

(** X12: a payload written against the flat version is taken by the wrapped
    one once the two keys that only the wrapped envelope requires are there.
    For INITIAL_PURCHASE, CANCELLATION, UNCANCELLATION,
    NON_RENEWING_PURCHASE, EXPIRATION, PRODUCT_CHANGE and
    SUBSCRIPTION_EXTENDED, a payload of the flat interface with
    [renewal_number] and [metadata] set to null conforms to the wrapped
    interface of the same tag. *)
Theorem flat_payload_upgrades
  (fi wi : interface) (kvs : list (string * json)) :
  In (fi, wi) upgradable -> conforms fi (JObject kvs) = true ->
  conforms wi (JObject (upgrade kvs)) = true.
Proof.
  intros Hp Hc. rewrite conforms_unfold, forallb_forall. intros g Hg.
  each_entry Hp; each_member Hg;
    first
      [ apply field_ok_upgrade_null; [tauto | reflexivity]
      | rewrite field_ok_upgrade by discriminate;
        eapply field_ok_from;
          [ exact Hc | vm_compute; reflexivity | cbn; tauto | cbn [ftype req opt]; wider ] ].
Qed.

Lemma flat_payload_upgrades_witness :
  conforms Flat.WebhookProductChange
    (JObject (remove "metadata"
                (remove "renewal_number" (envelope_sample "PRODUCT_CHANGE"))))
  = true /\
  conforms Wrapped.WebhookProductChange
    (JObject (remove "metadata"
                (remove "renewal_number" (envelope_sample "PRODUCT_CHANGE"))))
  = false /\
  conforms Wrapped.WebhookProductChange
    (JObject (upgrade
                (remove "metadata"
                   (remove "renewal_number"
                      (envelope_sample "PRODUCT_CHANGE"))))) = true.
Proof.
  split; [reflexivity|]. split; [reflexivity|].
  apply (flat_payload_upgrades Flat.WebhookProductChange).
  - simpl; tauto.
  - reflexivity.
Defined.

Lemma field_ok_not_null i kvs n t :
  conforms i (JObject kvs) = true ->
  field_of i n = Some (req n (nullable t)) ->
  lookup n kvs <> Some JNull ->
  field_ok kvs (req n t) = true.
Proof.
  intros Hc F Hnn. apply field_of_In in F. destruct F as [Hin _].
  destruct (conforms_required _ _ _ _ Hc Hin) as [x [Hl Hx]].
  unfold field_ok, req. cbn [fname ftype]. rewrite Hl.
  cbn [nullable has_type existsb] in Hx.
  destruct (has_type t x); [reflexivity|].
  destruct x; try discriminate Hx. congruence.
Qed.

Lemma field_ok_update_other kvs k x g :
  fname g <> k -> field_ok (update k x kvs) g = field_ok kvs g.
Proof.
  intros H. unfold field_ok. now rewrite lookup_update_neq.
Qed.

(** X13: the way back.  For INITIAL_PURCHASE, RENEWAL, CANCELLATION,
    UNCANCELLATION, NON_RENEWING_PURCHASE, BILLING_ISSUE and
    SUBSCRIPTION_EXTENDED, a payload of the wrapped interface conforms to
    the flat interface of the same tag as soon as none of
    [entitlement_ids], [price] and [price_in_purchased_currency] is null:
    these three are all that the flat envelope declares more strictly. *)
Theorem wrapped_payload_downgrades
  (fi wi : interface) (kvs : list (string * json)) :
  In (fi, wi) downgradable -> conforms wi (JObject kvs) = true ->
  (forall k, In k null_only_in_wrapped -> lookup k kvs <> Some JNull) ->
  conforms fi (JObject kvs) = true.
Proof.
  intros Hp Hc Hnn. rewrite conforms_unfold, forallb_forall. intros g Hg.
  each_entry Hp; each_member Hg;
    first
      [ eapply field_ok_from;
          [ exact Hc | vm_compute; reflexivity | cbn; tauto
          | exact (fun x Hx => Hx) ]
      | eapply field_ok_not_null;
          [ exact Hc | reflexivity | apply Hnn; simpl; tauto ] ].
Qed.

(** The spec's RENEWAL, completed, is a RENEWAL of the flat version too;
    with a null price it is one of the wrapped version only. *)
Lemma wrapped_payload_downgrades_witness :
  conforms Flat.WebhookRenewal (JObject full_example) = true /\
  conforms Wrapped.WebhookRenewal
    (JObject (update "price" JNull full_example)) = true /\
  conforms Flat.WebhookRenewal
    (JObject (update "price" JNull full_example)) = false.
Proof.
  split; [|split; reflexivity].
  apply (wrapped_payload_downgrades Flat.WebhookRenewal Wrapped.WebhookRenewal).
  - simpl; tauto.
  - reflexivity.
  - intros k Hk. each_member Hk; vm_compute; discriminate.
Defined.

(** X14: TEMPORARY_ENTITLEMENT_GRANT between the versions.  A payload of
    the flat interface becomes one of the wrapped interface by giving it a
    string [id]; a payload of the wrapped interface is one of the flat
    interface unless its [entitlement_ids] is null. *)
Theorem grant_between_versions (kvs : list (string * json)) :
  (conforms Flat.WebhookTemporaryEntitlementGrant (JObject kvs) = true ->
   forall id,
     conforms Wrapped.WebhookTemporaryEntitlementGrant
       (JObject (update "id" (JString id) kvs)) = true) /\
  (conforms Wrapped.WebhookTemporaryEntitlementGrant (JObject kvs) = true ->
   (conforms Flat.WebhookTemporaryEntitlementGrant (JObject kvs) = true <->
    lookup "entitlement_ids" kvs <> Some JNull)).
Proof.
  split.
  - intros Hc id. rewrite conforms_unfold, forallb_forall. intros g Hg.
    each_member Hg;
      first
        [ unfold field_ok, req; cbn [fname ftype];
          rewrite lookup_update_eq; reflexivity
        | rewrite field_ok_update_other by discriminate;
          eapply field_ok_from;
            [ exact Hc | vm_compute; reflexivity | cbn; tauto
            | cbn [ftype req]; wider ] ].
  - intros Hc. split.
    + intros Hf E.
      destruct (conforms_required _ _ "entitlement_ids" (TArray TString) Hf)
        as [x [Hl Hx]]; [simpl; tauto|].
      rewrite E in Hl. inversion Hl; subst x. discriminate Hx.
    + intros Hnn. rewrite conforms_unfold, forallb_forall. intros g Hg.
      each_member Hg;
        first
          [ eapply field_ok_from;
              [ exact Hc | vm_compute; reflexivity | cbn; tauto
              | exact (fun x Hx => Hx) ]
          | eapply field_ok_not_null;
              [ exact Hc | reflexivity | exact Hnn ] ].
Qed.

Lemma grant_between_versions_witness :
  conforms Wrapped.WebhookTemporaryEntitlementGrant
    (JObject (update "id" (JString "evt_4")
                (remove "id" (grant_sample (JArray []))))) = true /\
  conforms Flat.WebhookTemporaryEntitlementGrant
    (JObject (grant_sample (JArray []))) = true.
Proof.
  split.
  - apply (proj1 (grant_between_versions
                    (remove "id" (grant_sample (JArray []))))).
    reflexivity.
  - apply (proj2 (grant_between_versions (grant_sample (JArray [])))).
    + reflexivity.
    + vm_compute. discriminate.
Defined.
